(** * Business-hours and beer-price feature extraction: [parser.py]

    A shallow embedding of [src/parser.py] and the proofs of the properties
    stated about it.

    - Python [str] values are sequences of Unicode code points
      ([pystr = list Z]); literals are written in UTF-8 and decoded by [py].
    - Python [float] values are IEEE-754 binary64 numbers, the primitive
      [float] type; the arithmetic and the comparisons are the primitive
      ones, so every evaluation below is the one CPython performs.
    - The regular expressions of the source are kept as data ([regex]) and
      run by a backtracking matcher with the priorities of Python's [re]
      (greedy repetition, ordered alternation, leftmost match).
    - The character tables of the interpreter (which characters [\d]
      accepts and their decimal values, [str.lower]) are a parameter
      ([unicode]) of every function that consults them. *)

From Stdlib Require Import String Ascii ZArith List Bool Lia Floats Permutation.
Import ListNotations.

Set Warnings "-inexact-float".

Local Open Scope Z_scope.

(* ================================================================== *)
(** * Python strings *)
(* ================================================================== *)

Module PyStr.

(** A character is its Unicode code point. *)
Definition char := Z.
Definition pystr := list char.

Definition bytes_of (s : string) : list Z :=
  map (fun a => Z.of_nat (nat_of_ascii a)) (list_ascii_of_string s).

(** UTF-8 decoding, used only to write the literals of the source. *)
Fixpoint utf8_decode (bs : list Z) : pystr :=
  match bs with
  | [] => []
  | b0 :: r0 =>
      if b0 <? 128 then b0 :: utf8_decode r0
      else match r0 with
      | [] => []
      | b1 :: r1 =>
          if b0 <? 224 then ((b0 - 192) * 64 + (b1 - 128)) :: utf8_decode r1
          else match r1 with
          | [] => []
          | b2 :: r2 =>
              if b0 <? 240
              then ((b0 - 224) * 4096 + (b1 - 128) * 64 + (b2 - 128))
                     :: utf8_decode r2
              else match r2 with
              | [] => []
              | b3 :: r3 =>
                  ((b0 - 240) * 262144 + (b1 - 128) * 4096
                   + (b2 - 128) * 64 + (b3 - 128)) :: utf8_decode r3
              end
          end
      end
  end.

Definition py (s : string) : pystr := utf8_decode (bytes_of s).

Fixpoint str_eqb (a b : pystr) : bool :=
  match a, b with
  | [], [] => true
  | x :: a', y :: b' => (x =? y) && str_eqb a' b'
  | _, _ => false
  end.

(** [s.startswith(p)] *)
Fixpoint startswith (p s : pystr) : bool :=
  match p, s with
  | [], _ => true
  | x :: p', y :: s' => (x =? y) && startswith p' s'
  | _ :: _, [] => false
  end.

(** [p in s] *)
Fixpoint contains (p s : pystr) : bool :=
  startswith p s ||
  match s with
  | [] => false
  | _ :: s' => contains p s'
  end.

(** [s.replace(a, b)] for one-character [a] and [b]. *)
Definition replace_char (a b : char) (s : pystr) : pystr :=
  map (fun c => if c =? a then b else c) s.

(** [s.split(sep)] for a one-character separator: never the empty list. *)
Fixpoint split_char (sep : char) (s : pystr) : list pystr :=
  match s with
  | [] => [[]]
  | c :: s' =>
      if c =? sep then [] :: split_char sep s'
      else match split_char sep s' with
           | [] => [[c]]
           | seg :: segs => (c :: seg) :: segs
           end
  end.

(** [sep.join(pieces)] for a one-character separator. *)
Fixpoint join (sep : char) (pieces : list pystr) : pystr :=
  match pieces with
  | [] => []
  | [x] => x
  | x :: rest => x ++ sep :: join sep rest
  end.

(** The characters [str.isspace], [str.strip] and the regular expression
    class [\s] treat as white space. *)
Definition isspace (c : char) : bool :=
  ((9 <=? c) && (c <=? 13)) || ((28 <=? c) && (c <=? 32))
  || (c =? 133) || (c =? 160) || (c =? 5760)
  || ((8192 <=? c) && (c <=? 8202))
  || (c =? 8232) || (c =? 8233) || (c =? 8239) || (c =? 8287)
  || (c =? 12288).

Fixpoint lstrip (s : pystr) : pystr :=
  match s with
  | c :: s' => if isspace c then lstrip s' else s
  | [] => []
  end.

Definition rstrip (s : pystr) : pystr := rev (lstrip (rev s)).

(** [s.strip()] *)
Definition strip (s : pystr) : pystr := rstrip (lstrip s).

(** [t] occurs in [s] as a contiguous block. *)
Definition substr (t s : pystr) : Prop := exists a b, s = a ++ t ++ b.

Fixpoint prefixes (s : pystr) : list pystr :=
  [] :: match s with
        | [] => []
        | c :: s' => map (cons c) (prefixes s')
        end.

Fixpoint substrings (s : pystr) : list pystr :=
  prefixes s ++ match s with
                | [] => []
                | _ :: s' => substrings s'
                end.

End PyStr.
Import PyStr.

(** A decimal digit and its value. *)
Inductive digit := D0 | D1 | D2 | D3 | D4 | D5 | D6 | D7 | D8 | D9.

Definition digit_value (d : digit) : Z :=
  match d with
  | D0 => 0 | D1 => 1 | D2 => 2 | D3 => 3 | D4 => 4
  | D5 => 5 | D6 => 6 | D7 => 7 | D8 => 8 | D9 => 9
  end.

(** The character tables of the interpreter.  [decimal c] is the decimal
    digit [c] stands for when [c] is one of the characters that [\d] accepts
    and [int] converts; [lower] is [str.lower]. *)
Record unicode := {
  decimal : char -> option digit;
  lower : pystr -> pystr
}.

(** ** The tables of CPython 3.11, which are those of Unicode 14.0 *)

(** The zeros of the decimal digits, the characters of category Nd: each zero
    is followed by the digits from one to nine. *)
Definition decimal_zeros : list char := [
  48; 1632; 1776; 1984; 2406; 2534; 2662; 2790; 2918; 3046; 3174; 3302; 3430;
  3558; 3664; 3792; 3872; 4160; 4240; 6112; 6160; 6470; 6608; 6784; 6800;
  6992; 7088; 7232; 7248; 42528; 43216; 43264; 43472; 43504; 43600; 44016;
  65296; 66720; 68912; 69734; 69872; 69942; 70096; 70384; 70736; 70864; 71248;
  71360; 71472; 71904; 72016; 72784; 73040; 73120; 92768; 92864; 93008;
  120782; 120792; 120802; 120812; 120822; 123200; 123632; 125264; 130032 ].

Definition cpython_decimal (c : char) : option digit :=
  match find (fun z => (z <=? c) && (c <=? z + 9)) decimal_zeros with
  | Some z =>
      nth_error [D0; D1; D2; D3; D4; D5; D6; D7; D8; D9] (Z.to_nat (c - z))
  | None => None
  end.

(** The characters whose lower case is one other character, in runs
    [(lo, hi, step, delta)]: from [lo] to [hi] by steps of [step], the lower
    case of [c] is [c + delta]. *)
Definition lower_runs : list (char * char * Z * Z) := [
  (65, 90, 1, 32); (192, 214, 1, 32); (216, 222, 1, 32); (256, 302, 2, 1);
  (306, 310, 2, 1); (313, 327, 2, 1); (330, 374, 2, 1); (376, 376, 1, (-121));
  (377, 381, 2, 1); (385, 385, 1, 210); (386, 388, 2, 1); (390, 390, 1, 206);
  (391, 391, 1, 1); (393, 394, 1, 205); (395, 395, 1, 1); (398, 398, 1, 79);
  (399, 399, 1, 202); (400, 400, 1, 203); (401, 401, 1, 1);
  (403, 403, 1, 205); (404, 404, 1, 207); (406, 406, 1, 211);
  (407, 407, 1, 209); (408, 408, 1, 1); (412, 412, 1, 211);
  (413, 413, 1, 213); (415, 415, 1, 214); (416, 420, 2, 1);
  (422, 422, 1, 218); (423, 423, 1, 1); (425, 425, 1, 218); (428, 428, 1, 1);
  (430, 430, 1, 218); (431, 431, 1, 1); (433, 434, 1, 217); (435, 437, 2, 1);
  (439, 439, 1, 219); (440, 440, 1, 1); (444, 444, 1, 1); (452, 452, 1, 2);
  (453, 453, 1, 1); (455, 455, 1, 2); (456, 456, 1, 1); (458, 458, 1, 2);
  (459, 475, 2, 1); (478, 494, 2, 1); (497, 497, 1, 2); (498, 500, 2, 1);
  (502, 502, 1, (-97)); (503, 503, 1, (-56)); (504, 542, 2, 1);
  (544, 544, 1, (-130)); (546, 562, 2, 1); (570, 570, 1, 10795);
  (571, 571, 1, 1); (573, 573, 1, (-163)); (574, 574, 1, 10792);
  (577, 577, 1, 1); (579, 579, 1, (-195)); (580, 580, 1, 69);
  (581, 581, 1, 71); (582, 590, 2, 1); (880, 882, 2, 1); (886, 886, 1, 1);
  (895, 895, 1, 116); (902, 902, 1, 38); (904, 906, 1, 37); (908, 908, 1, 64);
  (910, 911, 1, 63); (913, 929, 1, 32); (931, 939, 1, 32); (975, 975, 1, 8);
  (984, 1006, 2, 1); (1012, 1012, 1, (-60)); (1015, 1015, 1, 1);
  (1017, 1017, 1, (-7)); (1018, 1018, 1, 1); (1021, 1023, 1, (-130));
  (1024, 1039, 1, 80); (1040, 1071, 1, 32); (1120, 1152, 2, 1);
  (1162, 1214, 2, 1); (1216, 1216, 1, 15); (1217, 1229, 2, 1);
  (1232, 1326, 2, 1); (1329, 1366, 1, 48); (4256, 4293, 1, 7264);
  (4295, 4295, 1, 7264); (4301, 4301, 1, 7264); (5024, 5103, 1, 38864);
  (5104, 5109, 1, 8); (7312, 7354, 1, (-3008)); (7357, 7359, 1, (-3008));
  (7680, 7828, 2, 1); (7838, 7838, 1, (-7615)); (7840, 7934, 2, 1);
  (7944, 7951, 1, (-8)); (7960, 7965, 1, (-8)); (7976, 7983, 1, (-8));
  (7992, 7999, 1, (-8)); (8008, 8013, 1, (-8)); (8025, 8031, 2, (-8));
  (8040, 8047, 1, (-8)); (8072, 8079, 1, (-8)); (8088, 8095, 1, (-8));
  (8104, 8111, 1, (-8)); (8120, 8121, 1, (-8)); (8122, 8123, 1, (-74));
  (8124, 8124, 1, (-9)); (8136, 8139, 1, (-86)); (8140, 8140, 1, (-9));
  (8152, 8153, 1, (-8)); (8154, 8155, 1, (-100)); (8168, 8169, 1, (-8));
  (8170, 8171, 1, (-112)); (8172, 8172, 1, (-7)); (8184, 8185, 1, (-128));
  (8186, 8187, 1, (-126)); (8188, 8188, 1, (-9)); (8486, 8486, 1, (-7517));
  (8490, 8490, 1, (-8383)); (8491, 8491, 1, (-8262)); (8498, 8498, 1, 28);
  (8544, 8559, 1, 16); (8579, 8579, 1, 1); (9398, 9423, 1, 26);
  (11264, 11311, 1, 48); (11360, 11360, 1, 1); (11362, 11362, 1, (-10743));
  (11363, 11363, 1, (-3814)); (11364, 11364, 1, (-10727));
  (11367, 11371, 2, 1); (11373, 11373, 1, (-10780));
  (11374, 11374, 1, (-10749)); (11375, 11375, 1, (-10783));
  (11376, 11376, 1, (-10782)); (11378, 11378, 1, 1); (11381, 11381, 1, 1);
  (11390, 11391, 1, (-10815)); (11392, 11490, 2, 1); (11499, 11501, 2, 1);
  (11506, 11506, 1, 1); (42560, 42604, 2, 1); (42624, 42650, 2, 1);
  (42786, 42798, 2, 1); (42802, 42862, 2, 1); (42873, 42875, 2, 1);
  (42877, 42877, 1, (-35332)); (42878, 42886, 2, 1); (42891, 42891, 1, 1);
  (42893, 42893, 1, (-42280)); (42896, 42898, 2, 1); (42902, 42920, 2, 1);
  (42922, 42922, 1, (-42308)); (42923, 42923, 1, (-42319));
  (42924, 42924, 1, (-42315)); (42925, 42925, 1, (-42305));
  (42926, 42926, 1, (-42308)); (42928, 42928, 1, (-42258));
  (42929, 42929, 1, (-42282)); (42930, 42930, 1, (-42261));
  (42931, 42931, 1, 928); (42932, 42946, 2, 1); (42948, 42948, 1, (-48));
  (42949, 42949, 1, (-42307)); (42950, 42950, 1, (-35384));
  (42951, 42953, 2, 1); (42960, 42960, 1, 1); (42966, 42968, 2, 1);
  (42997, 42997, 1, 1); (65313, 65338, 1, 32); (66560, 66599, 1, 40);
  (66736, 66771, 1, 40); (66928, 66964, 2, 39); (66929, 66938, 1, 39);
  (66940, 66954, 1, 39); (66956, 66962, 1, 39); (66964, 66965, 1, 39);
  (68736, 68786, 1, 64); (71840, 71871, 1, 32); (93760, 93791, 1, 32);
  (125184, 125217, 1, 34) ].

Definition cpython_lower_char (c : char) : char :=
  match find (fun r => match r with
                       | (lo, hi, step, _) =>
                           (lo <=? c) && (c <=? hi) && ((c - lo) mod step =? 0)
                       end) lower_runs with
  | Some (_, _, _, delta) => c + delta
  | None => c
  end.

(** The characters with the property Cased, as ranges. *)
Definition cased_ranges : list (char * char) := [
  (65, 90); (97, 122); (170, 170); (181, 181); (186, 186); (192, 214);
  (216, 246); (248, 442); (444, 447); (452, 659); (661, 696); (704, 705);
  (736, 740); (837, 837); (880, 883); (886, 887); (890, 893); (895, 895);
  (902, 902); (904, 906); (908, 908); (910, 929); (931, 1013); (1015, 1153);
  (1162, 1327); (1329, 1366); (1376, 1416); (4256, 4293); (4295, 4295);
  (4301, 4301); (4304, 4346); (4349, 4351); (5024, 5109); (5112, 5117);
  (7296, 7304); (7312, 7354); (7357, 7359); (7424, 7615); (7680, 7957);
  (7960, 7965); (7968, 8005); (8008, 8013); (8016, 8023); (8025, 8025);
  (8027, 8027); (8029, 8029); (8031, 8061); (8064, 8116); (8118, 8124);
  (8126, 8126); (8130, 8132); (8134, 8140); (8144, 8147); (8150, 8155);
  (8160, 8172); (8178, 8180); (8182, 8188); (8305, 8305); (8319, 8319);
  (8336, 8348); (8450, 8450); (8455, 8455); (8458, 8467); (8469, 8469);
  (8473, 8477); (8484, 8484); (8486, 8486); (8488, 8488); (8490, 8493);
  (8495, 8500); (8505, 8505); (8508, 8511); (8517, 8521); (8526, 8526);
  (8544, 8575); (8579, 8580); (9398, 9449); (11264, 11492); (11499, 11502);
  (11506, 11507); (11520, 11557); (11559, 11559); (11565, 11565);
  (42560, 42605); (42624, 42653); (42786, 42887); (42891, 42894);
  (42896, 42954); (42960, 42961); (42963, 42963); (42965, 42969);
  (42997, 42998); (43000, 43002); (43824, 43866); (43868, 43880);
  (43888, 43967); (64256, 64262); (64275, 64279); (65313, 65338);
  (65345, 65370); (66560, 66639); (66736, 66771); (66776, 66811);
  (66928, 66938); (66940, 66954); (66956, 66962); (66964, 66965);
  (66967, 66977); (66979, 66993); (66995, 67001); (67003, 67004);
  (67456, 67456); (67459, 67461); (67463, 67504); (67506, 67514);
  (68736, 68786); (68800, 68850); (71840, 71903); (93760, 93823);
  (119808, 119892); (119894, 119964); (119966, 119967); (119970, 119970);
  (119973, 119974); (119977, 119980); (119982, 119993); (119995, 119995);
  (119997, 120003); (120005, 120069); (120071, 120074); (120077, 120084);
  (120086, 120092); (120094, 120121); (120123, 120126); (120128, 120132);
  (120134, 120134); (120138, 120144); (120146, 120485); (120488, 120512);
  (120514, 120538); (120540, 120570); (120572, 120596); (120598, 120628);
  (120630, 120654); (120656, 120686); (120688, 120712); (120714, 120744);
  (120746, 120770); (120772, 120779); (122624, 122633); (122635, 122654);
  (125184, 125251); (127280, 127305); (127312, 127337); (127344, 127369) ].

(** The characters with the property Case_Ignorable, as ranges. *)
Definition case_ignorable_ranges : list (char * char) := [
  (39, 39); (46, 46); (58, 58); (94, 94); (96, 96); (168, 168); (173, 173);
  (175, 175); (180, 180); (183, 184); (688, 879); (884, 885); (890, 890);
  (900, 901); (903, 903); (1155, 1161); (1369, 1369); (1375, 1375);
  (1425, 1469); (1471, 1471); (1473, 1474); (1476, 1477); (1479, 1479);
  (1524, 1524); (1536, 1541); (1552, 1562); (1564, 1564); (1600, 1600);
  (1611, 1631); (1648, 1648); (1750, 1757); (1759, 1768); (1770, 1773);
  (1807, 1807); (1809, 1809); (1840, 1866); (1958, 1968); (2027, 2037);
  (2042, 2042); (2045, 2045); (2070, 2093); (2137, 2139); (2184, 2184);
  (2192, 2193); (2200, 2207); (2249, 2306); (2362, 2362); (2364, 2364);
  (2369, 2376); (2381, 2381); (2385, 2391); (2402, 2403); (2417, 2417);
  (2433, 2433); (2492, 2492); (2497, 2500); (2509, 2509); (2530, 2531);
  (2558, 2558); (2561, 2562); (2620, 2620); (2625, 2626); (2631, 2632);
  (2635, 2637); (2641, 2641); (2672, 2673); (2677, 2677); (2689, 2690);
  (2748, 2748); (2753, 2757); (2759, 2760); (2765, 2765); (2786, 2787);
  (2810, 2815); (2817, 2817); (2876, 2876); (2879, 2879); (2881, 2884);
  (2893, 2893); (2901, 2902); (2914, 2915); (2946, 2946); (3008, 3008);
  (3021, 3021); (3072, 3072); (3076, 3076); (3132, 3132); (3134, 3136);
  (3142, 3144); (3146, 3149); (3157, 3158); (3170, 3171); (3201, 3201);
  (3260, 3260); (3263, 3263); (3270, 3270); (3276, 3277); (3298, 3299);
  (3328, 3329); (3387, 3388); (3393, 3396); (3405, 3405); (3426, 3427);
  (3457, 3457); (3530, 3530); (3538, 3540); (3542, 3542); (3633, 3633);
  (3636, 3642); (3654, 3662); (3761, 3761); (3764, 3772); (3782, 3782);
  (3784, 3789); (3864, 3865); (3893, 3893); (3895, 3895); (3897, 3897);
  (3953, 3966); (3968, 3972); (3974, 3975); (3981, 3991); (3993, 4028);
  (4038, 4038); (4141, 4144); (4146, 4151); (4153, 4154); (4157, 4158);
  (4184, 4185); (4190, 4192); (4209, 4212); (4226, 4226); (4229, 4230);
  (4237, 4237); (4253, 4253); (4348, 4348); (4957, 4959); (5906, 5908);
  (5938, 5939); (5970, 5971); (6002, 6003); (6068, 6069); (6071, 6077);
  (6086, 6086); (6089, 6099); (6103, 6103); (6109, 6109); (6155, 6159);
  (6211, 6211); (6277, 6278); (6313, 6313); (6432, 6434); (6439, 6440);
  (6450, 6450); (6457, 6459); (6679, 6680); (6683, 6683); (6742, 6742);
  (6744, 6750); (6752, 6752); (6754, 6754); (6757, 6764); (6771, 6780);
  (6783, 6783); (6823, 6823); (6832, 6862); (6912, 6915); (6964, 6964);
  (6966, 6970); (6972, 6972); (6978, 6978); (7019, 7027); (7040, 7041);
  (7074, 7077); (7080, 7081); (7083, 7085); (7142, 7142); (7144, 7145);
  (7149, 7149); (7151, 7153); (7212, 7219); (7222, 7223); (7288, 7293);
  (7376, 7378); (7380, 7392); (7394, 7400); (7405, 7405); (7412, 7412);
  (7416, 7417); (7468, 7530); (7544, 7544); (7579, 7679); (8125, 8125);
  (8127, 8129); (8141, 8143); (8157, 8159); (8173, 8175); (8189, 8190);
  (8203, 8207); (8216, 8217); (8228, 8228); (8231, 8231); (8234, 8238);
  (8288, 8292); (8294, 8303); (8305, 8305); (8319, 8319); (8336, 8348);
  (8400, 8432); (11388, 11389); (11503, 11505); (11631, 11631);
  (11647, 11647); (11744, 11775); (11823, 11823); (12293, 12293);
  (12330, 12333); (12337, 12341); (12347, 12347); (12441, 12446);
  (12540, 12542); (40981, 40981); (42232, 42237); (42508, 42508);
  (42607, 42610); (42612, 42621); (42623, 42623); (42652, 42655);
  (42736, 42737); (42752, 42785); (42864, 42864); (42888, 42890);
  (42994, 42996); (43000, 43001); (43010, 43010); (43014, 43014);
  (43019, 43019); (43045, 43046); (43052, 43052); (43204, 43205);
  (43232, 43249); (43263, 43263); (43302, 43309); (43335, 43345);
  (43392, 43394); (43443, 43443); (43446, 43449); (43452, 43453);
  (43471, 43471); (43493, 43494); (43561, 43566); (43569, 43570);
  (43573, 43574); (43587, 43587); (43596, 43596); (43632, 43632);
  (43644, 43644); (43696, 43696); (43698, 43700); (43703, 43704);
  (43710, 43711); (43713, 43713); (43741, 43741); (43756, 43757);
  (43763, 43764); (43766, 43766); (43867, 43871); (43881, 43883);
  (44005, 44005); (44008, 44008); (44013, 44013); (64286, 64286);
  (64434, 64450); (65024, 65039); (65043, 65043); (65056, 65071);
  (65106, 65106); (65109, 65109); (65279, 65279); (65287, 65287);
  (65294, 65294); (65306, 65306); (65342, 65342); (65344, 65344);
  (65392, 65392); (65438, 65439); (65507, 65507); (65529, 65531);
  (66045, 66045); (66272, 66272); (66422, 66426); (67456, 67461);
  (67463, 67504); (67506, 67514); (68097, 68099); (68101, 68102);
  (68108, 68111); (68152, 68154); (68159, 68159); (68325, 68326);
  (68900, 68903); (69291, 69292); (69446, 69456); (69506, 69509);
  (69633, 69633); (69688, 69702); (69744, 69744); (69747, 69748);
  (69759, 69761); (69811, 69814); (69817, 69818); (69821, 69821);
  (69826, 69826); (69837, 69837); (69888, 69890); (69927, 69931);
  (69933, 69940); (70003, 70003); (70016, 70017); (70070, 70078);
  (70089, 70092); (70095, 70095); (70191, 70193); (70196, 70196);
  (70198, 70199); (70206, 70206); (70367, 70367); (70371, 70378);
  (70400, 70401); (70459, 70460); (70464, 70464); (70502, 70508);
  (70512, 70516); (70712, 70719); (70722, 70724); (70726, 70726);
  (70750, 70750); (70835, 70840); (70842, 70842); (70847, 70848);
  (70850, 70851); (71090, 71093); (71100, 71101); (71103, 71104);
  (71132, 71133); (71219, 71226); (71229, 71229); (71231, 71232);
  (71339, 71339); (71341, 71341); (71344, 71349); (71351, 71351);
  (71453, 71455); (71458, 71461); (71463, 71467); (71727, 71735);
  (71737, 71738); (71995, 71996); (71998, 71998); (72003, 72003);
  (72148, 72151); (72154, 72155); (72160, 72160); (72193, 72202);
  (72243, 72248); (72251, 72254); (72263, 72263); (72273, 72278);
  (72281, 72283); (72330, 72342); (72344, 72345); (72752, 72758);
  (72760, 72765); (72767, 72767); (72850, 72871); (72874, 72880);
  (72882, 72883); (72885, 72886); (73009, 73014); (73018, 73018);
  (73020, 73021); (73023, 73029); (73031, 73031); (73104, 73105);
  (73109, 73109); (73111, 73111); (73459, 73460); (78896, 78904);
  (92912, 92916); (92976, 92982); (92992, 92995); (94031, 94031);
  (94095, 94111); (94176, 94177); (94179, 94180); (110576, 110579);
  (110581, 110587); (110589, 110590); (113821, 113822); (113824, 113827);
  (118528, 118573); (118576, 118598); (119143, 119145); (119155, 119170);
  (119173, 119179); (119210, 119213); (119362, 119364); (121344, 121398);
  (121403, 121452); (121461, 121461); (121476, 121476); (121499, 121503);
  (121505, 121519); (122880, 122886); (122888, 122904); (122907, 122913);
  (122915, 122916); (122918, 122922); (123184, 123197); (123566, 123566);
  (123628, 123631); (125136, 125142); (125252, 125259); (127995, 127999);
  (917505, 917505); (917536, 917631); (917760, 917999) ].

Definition in_ranges (c : char) (rs : list (char * char)) : bool :=
  existsb (fun r => (fst r <=? c) && (c <=? snd r)) rs.

Definition cased (c : char) : bool := in_ranges c cased_ranges.
Definition case_ignorable (c : char) : bool :=
  in_ranges c case_ignorable_ranges.

(** No cased character comes next, the characters that case ignores being
    passed over. *)
Fixpoint no_cased_ahead (s : pystr) : bool :=
  match s with
  | [] => true
  | c :: s' => if case_ignorable c then no_cased_ahead s' else negb (cased c)
  end.

Definition capital_sigma : char := 931.
Definition capital_i_with_dot : char := 304.

(** [str.lower], from a position of the text; [after_cased] says that the
    last character before it that case does not ignore is a cased one.  A
    capital sigma becomes a final sigma between a cased character and no cased
    character, and a small sigma elsewhere; the capital I with a dot becomes
    two characters; any other character becomes its lower case. *)
Fixpoint lower_from (after_cased : bool) (s : pystr) : pystr :=
  match s with
  | [] => []
  | c :: s' =>
      (if c =? capital_sigma
       then [if after_cased && no_cased_ahead s' then 962 else 963]
       else if c =? capital_i_with_dot then [105; 775]
       else [cpython_lower_char c])
      ++ lower_from (if case_ignorable c then after_cased else cased c) s'
  end.

Definition cpython : unicode :=
  {| decimal := cpython_decimal; lower := lower_from false |}.

(* ================================================================== *)
(** * Regular expressions, as Python's [re] runs them *)
(* ================================================================== *)

Module Re.

(** Character classes. *)
Inductive cclass :=
| CDigit                          (* \d *)
| CSpace                          (* \s *)
| CSet (rs : list (char * char)). (* [...]: ranges a-b; one character c is (c, c) *)

(** The fragment of the syntax the source uses.  Repetition is applied to
    character classes only and is greedy; [Rep c lo None] is unbounded. *)
Inductive regex :=
| Lit (p : pystr)
| Rep (c : cclass) (lo : nat) (hi : option nat)
| Seq (r1 r2 : regex)
| Alt (r1 r2 : regex)
| Group (i : nat) (r : regex).

(** Captured groups, the most recent binding first. *)
Definition captures := list (nat * pystr).

Fixpoint group (i : nat) (g : captures) : option pystr :=
  match g with
  | [] => None
  | (j, v) :: g' => if Nat.eqb i j then Some v else group i g'
  end.

(** What was read of [s] when [rest] is what is left of it. *)
Definition consumed (s rest : pystr) : pystr :=
  firstn (length s - length rest) s.

(** A match object: [group()] and the numbered groups. *)
Record match_obj := { whole : pystr; caps : captures }.

Section Matcher.

Variable U : unicode.

Definition in_range (x : char) (r : char * char) : bool :=
  (fst r <=? x) && (x <=? snd r).

Definition cmatch (c : cclass) (x : char) : bool :=
  match c with
  | CDigit => match decimal U x with Some _ => true | None => false end
  | CSpace => isspace x
  | CSet rs => existsb (in_range x) rs
  end.

Definition may_repeat (hi : option nat) : bool :=
  match hi with Some O => false | _ => true end.

Section Run.

Context {R : Type}.

(** Greedy repetition: one more character while the class and the upper
    bound allow it; when what follows fails, give one character back. *)
Fixpoint rep (c : cclass) (lo : nat) (hi : option nat) (s : pystr)
    (k : pystr -> option R) : option R :=
  let stop := match lo with O => k s | S _ => None end in
  match s with
  | x :: s' =>
      if may_repeat hi && cmatch c x then
        match rep c (Nat.pred lo) (option_map Nat.pred hi) s' k with
        | Some v => Some v
        | None => stop
        end
      else stop
  | [] => stop
  end.

(** The backtracking matcher, in continuation-passing style: [k] is what is
    left of the pattern; the first success in priority order is the result. *)
Fixpoint run (r : regex) (s : pystr) (g : captures)
    (k : pystr -> captures -> option R) : option R :=
  match r with
  | Lit p => if startswith p s then k (skipn (length p) s) g else None
  | Rep c lo hi => rep c lo hi s (fun rest => k rest g)
  | Seq r1 r2 => run r1 s g (fun s1 g1 => run r2 s1 g1 k)
  | Alt r1 r2 =>
      match run r1 s g k with
      | Some v => Some v
      | None => run r2 s g k
      end
  | Group i r1 => run r1 s g (fun rest g1 => k rest ((i, consumed s rest) :: g1))
  end.

End Run.

(** [re.match(r, s)]: a match at the start of [s]. *)
Definition re_match (r : regex) (s : pystr) : option match_obj :=
  run r s [] (fun rest g => Some {| whole := consumed s rest; caps := g |}).

(** [re.search(r, s)]: the leftmost match. *)
Fixpoint re_search (r : regex) (s : pystr) : option match_obj :=
  match re_match r s with
  | Some m => Some m
  | None => match s with
            | [] => None
            | _ :: s' => re_search r s'
            end
  end.

(** [re.findall(r, s)] for a pattern without groups that matches no empty
    string: the matches from left to right, each search resuming where the
    previous match ended ([skip] counts the characters still covered by it). *)
Fixpoint findall_from (r : regex) (s : pystr) (skip : nat) : list pystr :=
  match s with
  | [] => []
  | _ :: s' =>
      match skip with
      | S n => findall_from r s' n
      | O =>
          match re_match r s with
          | Some m =>
              match length (whole m) with
              | S n => whole m :: findall_from r s' n
              | O => findall_from r s' O
              end
          | None => findall_from r s' O
          end
      end
  end.

Definition re_findall (r : regex) (s : pystr) : list pystr := findall_from r s O.

(** [re.split(r, s)] for a pattern without groups that matches no empty
    string; [cur] holds, reversed, the piece being read. *)
Fixpoint split_from (r : regex) (s : pystr) (skip : nat) (cur : pystr)
    : list pystr :=
  match s with
  | [] => [rev cur]
  | c :: s' =>
      match skip with
      | S n => split_from r s' n cur
      | O =>
          match re_match r s with
          | Some m =>
              match length (whole m) with
              | S n => rev cur :: split_from r s' n []
              | O => split_from r s' O (c :: cur)
              end
          | None => split_from r s' O (c :: cur)
          end
      end
  end.

Definition re_split (r : regex) (s : pystr) : list pystr := split_from r s O [].

(** What a pattern says about the text [pre] it reads: [denote r pre g g']
    holds when [r] can read exactly [pre], turning the groups [g] into [g']. *)
Definition repeats (c : cclass) (lo : nat) (hi : option nat) (pre : pystr)
    : Prop :=
  Forall (fun x => cmatch c x = true) pre
  /\ (lo <= length pre)%nat
  /\ match hi with Some h => (length pre <= h)%nat | None => True end.

Fixpoint denote (r : regex) (pre : pystr) (g g' : captures) : Prop :=
  match r with
  | Lit p => pre = p /\ g' = g
  | Rep c lo hi => repeats c lo hi pre /\ g' = g
  | Seq r1 r2 =>
      exists p1 p2 gm, pre = p1 ++ p2 /\ denote r1 p1 g gm /\ denote r2 p2 gm g'
  | Alt r1 r2 => denote r1 pre g g' \/ denote r2 pre g g'
  | Group i r1 => exists gm, denote r1 pre g gm /\ g' = (i, pre) :: gm
  end.

End Matcher.

Declare Scope regex_scope.
Delimit Scope regex_scope with re.
Infix ";;" := Seq (at level 60, right associativity) : regex_scope.
Infix "|or|" := Alt (at level 61, right associativity) : regex_scope.

End Re.
Import Re.

Local Open Scope regex_scope.

(* ================================================================== *)
(** * Numbers *)
(* ================================================================== *)

(** [float(n)] for an integer [n], rounded to the nearest double, ties to
    even.  (It overflows from 2^1024 on; see [py_float].) *)
Definition float_of_int (n : Z) : float :=
  SF2Prim (binary_normalize prec emax n 0 false).

(** [a / b] for integers.  Python rounds the exact quotient once; for
    operands below 2^53, which is all the source divides, that is the
    quotient of the two doubles. *)
Definition truediv (a b : Z) : float :=
  (float_of_int a / float_of_int b)%float.

(** The clock time [h:m] in hours, [h + m / 60] as [parse_time_range]
    computes it; the name is used to state what the function returns. *)
Definition clock (h m : Z) : float :=
  (float_of_int h + truediv m 60)%float.

(** [max(a, b)] and [min(a, b)]: the second argument is taken only when it is
    strictly greater (smaller) than the first.  The source compares a [float]
    with the integers 0, 6, 22 and 24; Python compares the two by value, and
    these integers are doubles. *)
Definition py_max (a b : float) : float := if (a <? b)%float then b else a.
Definition py_min (a b : float) : float := if (b <? a)%float then b else a.

(** The doubles that are not below zero: the two zeros, the positive finite
    numbers and the positive infinity. *)
Definition sf_nonneg (x : spec_float) : Prop :=
  match x with
  | S754_zero _ => True
  | S754_infinity s => s = false
  | S754_finite s _ _ => s = false
  | S754_nan => False
  end.

(** The order of the doubles, read on a key: the class of the number (the
    infinities outside, the zeros in the middle), then the exponent and the
    mantissa, both counted downwards for a negative number.  Keys are compared
    from left to right. *)
Definition sf_key (x : spec_float) : Z * Z * Z :=
  match x with
  | S754_zero _ => (0, 0, 0)
  | S754_nan => (0, 0, 0)
  | S754_infinity s => (if s then -2 else 2, 0, 0)
  | S754_finite s m e => if s then (-1, - e, Zneg m) else (1, e, Zpos m)
  end.

Definition lt3 (a b : Z * Z * Z) : Prop :=
  fst (fst a) < fst (fst b)
  \/ (fst (fst a) = fst (fst b)
      /\ (snd (fst a) < snd (fst b)
          \/ (snd (fst a) = snd (fst b) /\ snd a < snd b))).

(** 1 for the value that is not a number, which compares with nothing. *)
Definition sf_nan (x : spec_float) : Z :=
  match x with S754_nan => 1 | _ => 0 end.

Definition sf_lt (x y : spec_float) : Prop :=
  sf_nan x = 0 /\ sf_nan y = 0 /\ lt3 (sf_key x) (sf_key y).

Definition eq3 (a b : Z * Z * Z) : Prop :=
  fst (fst a) = fst (fst b) /\ snd (fst a) = snd (fst b) /\ snd a = snd b.

Definition sf_le (x y : spec_float) : Prop :=
  sf_nan x = 0 /\ sf_nan y = 0
  /\ (lt3 (sf_key x) (sf_key y) \/ eq3 (sf_key x) (sf_key y)).

(** A field of the result holds an [int] or a [float]. *)
Inductive number := PyInt (n : Z) | PyFloat (x : float).

(** [0 <= v] *)
Definition nonneg (v : number) : bool :=
  match v with
  | PyInt n => 0 <=? n
  | PyFloat x => (0 <=? x)%float
  end.

(** What a call does: it returns a value or raises an exception. *)
Inductive outcome (A : Type) := Returns (a : A) | Raises.
Arguments Returns {A} a.
Arguments Raises {A}.

(** [float(n)], which raises [OverflowError] when [n] rounds to infinity. *)
Definition py_float (n : Z) : outcome float :=
  match binary_normalize prec emax n 0 false with
  | S754_infinity _ => Raises
  | sf => Returns (SF2Prim sf)
  end.

(** [float(np.median([a, b]))] for two non-negative integers: the mean of the
    two.  Below 2^64 numpy holds them in a numeric array, converts them to
    doubles, adds them and halves the sum.  From 2^64 on it keeps Python
    integers: their sum is exact and its half is rounded once, and a half too
    large for a double raises [OverflowError]. *)
Definition median_of_two (a b : Z) : outcome float :=
  if (a <? 2 ^ 64) && (b <? 2 ^ 64)
  then Returns ((float_of_int a + float_of_int b) / 2)%float
  else match binary_normalize prec emax (a + b) (-1) false with
       | S754_infinity _ => Raises
       | sf => Returns (SF2Prim sf)
       end.

(** The longest run of digits that [int] converts: on a longer one CPython
    (from 3.11, as it is configured by default) raises [ValueError]. *)
Definition int_max_str_digits : Z := 4300.

(* ================================================================== *)
(** * The parser *)
(* ================================================================== *)

(** Constants of the module. *)
Definition WEEK_DAYS : list pystr := [py "пн"; py "вт"; py "ср"; py "чт"; py "пт"].
Definition WEEKEND_DAYS : list pystr := [py "сб"; py "вс"].
Definition ALL_DAYS : list pystr := WEEK_DAYS ++ WEEKEND_DAYS.

Definition DAY_START : float := 6.
Definition DAY_END : float := 22.

Definition en_dash : char := 8211.
Definition hyphen : char := 45.
Definition colon : char := 58.
Definition semicolon : char := 59.
Definition comma : char := 44.

(** [d in days] for a set of strings. *)
Definition mem (d : pystr) (days : list pystr) : bool := existsb (str_eqb d) days.

(** [days.add(d)]: sets are lists without repetition. *)
Definition set_add (d : pystr) (days : list pystr) : list pystr :=
  if mem d days then days else days ++ [d].

(** [days.update(ds)] *)
Definition set_update (ds days : list pystr) : list pystr :=
  fold_left (fun acc d => set_add d acc) ds days.

(** [order.index(d)] *)
Fixpoint index (d : pystr) (order : list pystr) : option nat :=
  match order with
  | [] => None
  | x :: order' =>
      if str_eqb x d then Some O else option_map S (index d order')
  end.

(** [order[i:j]] for indices within the list. *)
Definition slice {A : Type} (l : list A) (i j : nat) : list A :=
  firstn (j - i) (skipn i l).

(** [\d{1,2}] and [\d{2}] *)
Definition d12 : regex := Rep CDigit 1 (Some 2%nat).
Definition d2 : regex := Rep CDigit 2 (Some 2%nat).

(** [(\d{1,2}):(\d{2})-(\d{1,2}):(\d{2})] *)
Definition time_range_re : regex :=
  Group 1 d12 ;; Lit [colon] ;; Group 2 d2 ;; Lit [hyphen] ;;
  Group 3 d12 ;; Lit [colon] ;; Group 4 d2.

(** [\d{1,2}:\d{2}-\d{1,2}:\d{2}] *)
Definition time_token_re : regex :=
  d12 ;; Lit [colon] ;; d2 ;; Lit [hyphen] ;; d12 ;; Lit [colon] ;; d2.

(** [(пн|вт|ср|чт|пт|сб|вс)] *)
Definition day_re : regex :=
  Lit (py "пн") |or| Lit (py "вт") |or| Lit (py "ср") |or| Lit (py "чт")
  |or| Lit (py "пт") |or| Lit (py "сб") |or| Lit (py "вс").

(** [(пн|вт|ср|чт|пт|сб|вс)-(пн|вт|ср|чт|пт|сб|вс)] *)
Definition day_range_re : regex :=
  Group 1 day_re ;; Lit [hyphen] ;; Group 2 day_re.

(** [,\s*] *)
Definition comma_re : regex := Lit [comma] ;; Rep CSpace 0 None.

(** [([а-я,\-]+)\s+(\d{1,2}:\d{2}-\d{1,2}:\d{2})] *)
Definition segment_re : regex :=
  Group 1 (Rep (CSet [(1072, 1103); (comma, comma); (hyphen, hyphen)]) 1 None) ;;
  Rep CSpace 1 None ;; Group 2 time_token_re.

(** [\d+] *)
Definition digits_re : regex := Rep CDigit 1 None.

(** The record [hours_parser] returns. *)
Record features := {
  is_24_7 : bool;
  is_night : bool;
  is_day : bool;
  on_week : bool;
  on_weekend : bool;
  hours_on_week : number;
  hours_on_weekend : number
}.

Section Parser.

Variable U : unicode.

(** The number that a run of decimal digits writes. *)
Fixpoint int_digits (acc : Z) (s : pystr) : option Z :=
  match s with
  | [] => Some acc
  | c :: s' =>
      match decimal U c with
      | Some d => int_digits (10 * acc + digit_value d) s'
      | None => None
      end
  end.

(** [int(s)] for a run of decimal digits; [None] where [int] raises
    [ValueError]: for a run longer than [int_max_str_digits], and for any
    other string (the source applies [int] to runs of digits only). *)
Definition py_int (s : pystr) : option Z :=
  match s with
  | [] => None
  | _ :: _ =>
      if int_max_str_digits <? Z.of_nat (length s) then None
      else int_digits 0 s
  end.

(** [int(match.group(i))] *)
Definition int_group (m : match_obj) (i : nat) : option Z :=
  match group i (caps m) with
  | Some s => py_int s
  | None => None
  end.

Definition parse_time_range (time_range : pystr) : option (float * float) :=
  let time_range := replace_char en_dash hyphen time_range in
  match re_match U time_range_re time_range with
  | None => None
  | Some m =>
      match int_group m 1, int_group m 2, int_group m 3, int_group m 4 with
      | Some h1, Some m1, Some h2, Some m2 =>
          let start := (float_of_int h1 + truediv m1 60)%float in
          let end_ := (float_of_int h2 + truediv m2 60)%float in
          let end_ := if (end_ <=? start)%float then (end_ + 24)%float else end_ in
          Some (start, end_)
      | _, _, _, _ => None
      end
  end.

Definition intersects_day (start end_ : float) : bool :=
  (py_max start DAY_START <? py_min end_ DAY_END)%float.

Definition night_ranges : list (float * float) := [(22, 24); (0, 6)]%float.

Definition intersects_night (start end_ : float) : bool :=
  existsb (fun r => (py_max start (fst r) <? py_min end_ (snd r))%float)
          night_ranges.

Definition order : list pystr :=
  [py "пн"; py "вт"; py "ср"; py "чт"; py "пт"; py "сб"; py "вс"].

Definition expand_days (days_part : pystr) : list pystr :=
  let days_part := lower U days_part in
  match re_match U day_range_re days_part with
  | Some range_match =>
      match group 1 (caps range_match), group 2 (caps range_match) with
      | Some start, Some end_ =>
          match index start order, index end_ order with
          | Some i1, Some i2 => set_update (slice order i1 (i2 + 1)) []
          | _, _ => []
          end
      | _, _ => []
      end
  | None =>
      fold_left (fun days d => if mem d ALL_DAYS then set_add d days else days)
                (re_split U comma_re days_part) []
  end.

(** The time range the "daily" branches read: the first token of the text,
    parsed. *)
Definition first_time_range (text : pystr) : option (float * float) :=
  match re_search U time_token_re text with
  | Some m => parse_time_range (whole m)
  | None => None
  end.

Definition no_features : features :=
  {| is_24_7 := false; is_night := false; is_day := false;
     on_week := false; on_weekend := false;
     hours_on_week := PyFloat 0; hours_on_weekend := PyFloat 0 |}.

Definition full_time : features :=
  {| is_24_7 := true; is_night := true; is_day := true;
     on_week := true; on_weekend := true;
     hours_on_week := PyInt (24 * 5); hours_on_weekend := PyInt (24 * 2) |}.

(** The running values of the segment loop. *)
Record totals := {
  t_night : bool;
  t_day : bool;
  t_week : bool;
  t_weekend : bool;
  t_hours_week : float;
  t_hours_weekend : float
}.

Definition totals0 : totals :=
  {| t_night := false; t_day := false; t_week := false; t_weekend := false;
     t_hours_week := 0; t_hours_weekend := 0 |}.

(** The body of [for d in days].  Every day adds the same [hours] to one of
    two separate totals, so the order in which the set is visited does not
    show in the result. *)
Definition add_day (hours : float) (t : totals) (d : pystr) : totals :=
  if mem d WEEK_DAYS then
    {| t_night := t_night t; t_day := t_day t;
       t_week := true; t_weekend := t_weekend t;
       t_hours_week := (t_hours_week t + hours)%float;
       t_hours_weekend := t_hours_weekend t |}
  else if mem d WEEKEND_DAYS then
    {| t_night := t_night t; t_day := t_day t;
       t_week := t_week t; t_weekend := true;
       t_hours_week := t_hours_week t;
       t_hours_weekend := (t_hours_weekend t + hours)%float |}
  else t.

(** The body of [for segment in segments]. *)
Definition add_segment (t : totals) (segment : pystr) : totals :=
  let segment := strip segment in
  match re_match U segment_re segment with
  | None => t
  | Some m =>
      match group 1 (caps m), group 2 (caps m) with
      | Some days_part, Some time_part =>
          let days := expand_days days_part in
          match parse_time_range time_part with
          | None => t
          | Some (start, end_) =>
              let hours := (end_ - start)%float in
              let t1 :=
                {| t_night := if intersects_night start end_ then true else t_night t;
                   t_day := if intersects_day start end_ then true else t_day t;
                   t_week := t_week t; t_weekend := t_weekend t;
                   t_hours_week := t_hours_week t;
                   t_hours_weekend := t_hours_weekend t |} in
              fold_left (add_day hours) days t1
          end
      | _, _ => t
      end
  end.

Definition round_the_clock : pystr := py "круглосуточно".
Definition every_day : pystr := py "ежедневно".
Definition mon_sun : pystr := py "пн-вс".

(** [str(hours_str).lower().replace("–", "-")] *)
Definition normalize (hours_str : pystr) : pystr :=
  replace_char en_dash hyphen (lower U hours_str).

(** The two tests that set [is_24_7], in the order of the source. *)
Definition detect_24_7 (text : pystr) : bool :=
  let is_24_7 :=
    (contains round_the_clock text && contains every_day text)
    || (contains round_the_clock text && contains mon_sun text) in
  if negb is_24_7 && startswith every_day text then
    match first_time_range text with
    | Some (start, end_) =>
        if (start =? 0)%float && (23.99 <=? end_ - start)%float
        then true else is_24_7
    | None => is_24_7
    end
  else is_24_7.

(** [hours_parser]; [None] is a missing value ([pd.isna]). *)
Definition hours_parser (hours_str : option pystr) : features :=
  match hours_str with
  | None => no_features
  | Some raw =>
      let text := normalize raw in
      if detect_24_7 text then full_time
      else
        match (if startswith every_day text then first_time_range text
               else None) with
        | Some (start, end_) =>
            let hours := (end_ - start)%float in
            {| is_24_7 := false;
               is_night := intersects_night start end_;
               is_day := intersects_day start end_;
               on_week := true; on_weekend := true;
               hours_on_week := PyFloat (hours * 5);
               hours_on_weekend := PyFloat (hours * 2) |}
        | None =>
            let t := fold_left add_segment (split_char semicolon text) totals0 in
            {| is_24_7 := false;
               is_night := t_night t;
               is_day := t_day t;
               on_week := t_week t; on_weekend := t_weekend t;
               hours_on_week := PyFloat (t_hours_week t);
               hours_on_weekend := PyFloat (t_hours_weekend t) |}
        end
  end.

Definition beer_key : pystr := py "цена бокала пива".

(** [list(map(int, numbers))]; [None] when [int] raises on some element. *)
Fixpoint ints (numbers : list pystr) : option (list Z) :=
  match numbers with
  | [] => Some []
  | s :: rest =>
      match py_int s, ints rest with
      | Some n, Some ns => Some (n :: ns)
      | _, _ => None
      end
  end.

(** [parse_middle_beer_cup]; [np.nan] is the result for "no value". *)
Definition parse_middle_beer_cup (value : option pystr) : outcome float :=
  match value with
  | None => Returns nan
  | Some raw =>
      let value := strip (lower U raw) in
      if negb (contains beer_key value) then Returns nan
      else
        match ints (re_findall U digits_re value) with
        | None => Raises
        | Some [] => Returns nan
        | Some [n] => py_float n
        | Some (a :: b :: _) => median_of_two a b
        end
  end.

(** Every time range that can be read somewhere in [text] starts before 24
    hours. *)
Definition starts_before_24 (text : pystr) : bool :=
  forallb (fun t => match parse_time_range t with
                    | Some (start, _) => (start <? 24)%float
                    | None => true
                    end)
          (substrings text).

(** The same for the argument of [hours_parser], whose text is normalized
    before it is read. *)
Definition clock_times (hours_str : option pystr) : bool :=
  match hours_str with
  | None => true
  | Some raw => starts_before_24 (normalize raw)
  end.

(** The time ranges of a text, all of them starting before 24 hours. *)
Definition early (text : pystr) : Prop :=
  forall t start end_,
    substr t text -> parse_time_range t = Some (start, end_) ->
    (start <? 24)%float = true.

(** The totals of the segment loop are never below zero. *)
Definition totals_ok (t : totals) : Prop :=
  (0 <=? t_hours_week t)%float = true
  /\ (0 <=? t_hours_weekend t)%float = true.

(** ** The segmented format, in the words of the specification

    The definitions that follow are not the loop of the source: they say what
    the record of a segmented text is, segment by segment, and are what
    [hours_parser] is compared with. *)

(** What a segment says: the days it covers and its time range. *)
Record reading := {
  r_days : list pystr;
  r_start : float;
  r_end : float
}.

(** A segment that matches the pattern of a segment and whose time range
    parses is read; any other segment says nothing. *)
Definition read_segment (segment : pystr) : option reading :=
  match re_match U segment_re (strip segment) with
  | None => None
  | Some m =>
      match group 1 (caps m), group 2 (caps m) with
      | Some days_part, Some time_part =>
          match parse_time_range time_part with
          | Some (start, end_) =>
              Some {| r_days := expand_days days_part;
                      r_start := start; r_end := end_ |}
          | None => None
          end
      | _, _ => None
      end
  end.

(** The segments of a text that are read, in the order of the text. *)
Definition readings (text : pystr) : list reading :=
  flat_map (fun segment => match read_segment segment with
                           | Some r => [r]
                           | None => []
                           end)
           (split_char semicolon text).

(** The full duration of a segment. *)
Definition duration (r : reading) : float := (r_end r - r_start r)%float.

(** How many of [days] belong to [part], a part of the week. *)
Definition covered (part days : list pystr) : nat :=
  length (filter (fun d => mem d part) days).

(** [hours] added [n] times to [total], one addition after the other. *)
Fixpoint add_times (hours : float) (n : nat) (total : float) : float :=
  match n with
  | O => total
  | S n' => add_times hours n' (total + hours)%float
  end.

(** The hours of a part of the week: from 0.0, every segment in turn adds its
    duration once for each day of that part it covers. *)
Definition total_hours (part : list pystr) (rs : list reading) : float :=
  fold_left (fun total r =>
               add_times (duration r) (covered part (r_days r)) total)
            rs 0%float.

(** Some segment covers a day of [part]. *)
Definition works_on (part : list pystr) (rs : list reading) : bool :=
  existsb (fun r => (0 <? covered part (r_days r))%nat) rs.

(** Some segment has a time range that meets the day, or the night. *)
Definition any_by_day (rs : list reading) : bool :=
  existsb (fun r => intersects_day (r_start r) (r_end r)) rs.
Definition any_by_night (rs : list reading) : bool :=
  existsb (fun r => intersects_night (r_start r) (r_end r)) rs.

(** The texts that reach the loop over the segments: those that are not 24/7
    and are not "ежедневно" with a time range. *)
Definition segmented (raw : pystr) : bool :=
  let text := normalize raw in
  negb (detect_24_7 text)
  && match (if startswith every_day text then first_time_range text
            else None) with
     | Some _ => false
     | None => true
     end.

End Parser.

(** The values of a field of one or two digits. *)
Definition two_digits : list Z := map Z.of_nat (seq 0 100).

(* ================================================================== *)
(** * What a successful match says about the text *)
(* ================================================================== *)

Section MatchFacts.

Variable U : unicode.

Lemma startswith_app (p s : pystr) :
  startswith p s = true -> s = p ++ skipn (length p) s.
Proof.
  revert s. induction p as [|x p IH]; intros s H; simpl in *.
  - reflexivity.
  - destruct s as [|y s]; [discriminate|].
    apply andb_prop in H. destruct H as [Hxy Hp].
    apply Z.eqb_eq in Hxy. subst y. simpl. f_equal. apply IH, Hp.
Qed.

Lemma consumed_app (pre rest : pystr) : consumed (pre ++ rest) rest = pre.
Proof.
  unfold consumed. rewrite length_app.
  replace (length pre + length rest - length rest)%nat with (length pre) by lia.
  rewrite firstn_app, Nat.sub_diag, firstn_all. simpl. apply app_nil_r.
Qed.

Lemma rep_sound {R : Type} (c : cclass) (s : pystr) :
  forall (lo : nat) (hi : option nat) (k : pystr -> option R) (v : R),
    rep U c lo hi s k = Some v ->
    exists pre rest,
      s = pre ++ rest /\ repeats U c lo hi pre /\ k rest = Some v.
Proof.
  unfold repeats.
  induction s as [|x s IH]; intros lo hi k v H; simpl in H.
  - destruct lo; [|discriminate].
    exists [], []. repeat split; auto. destruct hi; simpl; auto. lia.
  - assert (Hstop : match lo with O => k (x :: s) | S _ => None end = Some v ->
                    exists pre rest, x :: s = pre ++ rest
                      /\ (Forall (fun y => cmatch U c y = true) pre
                          /\ (lo <= length pre)%nat
                          /\ match hi with
                             | Some h => (length pre <= h)%nat
                             | None => True
                             end)
                      /\ k rest = Some v).
    { intros Hk. destruct lo; [|discriminate].
      exists [], (x :: s). repeat split; auto.
      destruct hi; simpl; auto. lia. }
    destruct (may_repeat hi && cmatch U c x) eqn:Hgo; [|auto].
    destruct (rep U c (Nat.pred lo) (option_map Nat.pred hi) s k) as [v'|] eqn:Hrec;
      [|auto].
    injection H as <-.
    apply andb_prop in Hgo. destruct Hgo as [Hhi Hx].
    destruct (IH _ _ _ _ Hrec) as (pre & rest & -> & (Hall & Hlo & Hup) & Hk).
    exists (x :: pre), rest. repeat split; auto.
    + simpl. lia.
    + destruct hi as [[|h]|]; simpl in *; try discriminate; auto. lia.
Qed.

Lemma run_sound {R : Type} (r : regex) :
  forall (s : pystr) (g : captures) (k : pystr -> captures -> option R) (v : R),
    run U r s g k = Some v ->
    exists pre rest g',
      s = pre ++ rest /\ denote U r pre g g' /\ k rest g' = Some v.
Proof.
  induction r as [p|c lo hi|r1 IH1 r2 IH2|r1 IH1 r2 IH2|i r IH];
    intros s g k v H; simpl in H.
  - destruct (startswith p s) eqn:Hp; [|discriminate].
    exists p, (skipn (length p) s), g. simpl.
    repeat split; auto using startswith_app.
  - apply rep_sound in H. destruct H as (pre & rest & -> & Hrep & Hk).
    exists pre, rest, g. simpl. auto.
  - apply IH1 in H. destruct H as (p1 & rest1 & g1 & -> & H1 & H).
    apply IH2 in H. destruct H as (p2 & rest & g2 & -> & H2 & Hk).
    exists (p1 ++ p2), rest, g2. rewrite <- app_assoc. simpl.
    repeat split; auto. exists p1, p2, g1. auto.
  - destruct (run U r1 s g k) as [v'|] eqn:H1.
    + injection H as <-. apply IH1 in H1.
      destruct H1 as (pre & rest & g' & -> & Hd & Hk).
      exists pre, rest, g'. simpl. auto.
    + apply IH2 in H. destruct H as (pre & rest & g' & -> & Hd & Hk).
      exists pre, rest, g'. simpl. auto.
  - apply IH in H. destruct H as (pre & rest & g1 & -> & Hd & Hk).
    rewrite consumed_app in Hk.
    exists pre, rest, ((i, pre) :: g1). simpl. repeat split; auto.
    exists g1. auto.
Qed.

(** A match at the start of [s] reads a prefix of [s]. *)
Lemma re_match_sound (r : regex) (s : pystr) (m : match_obj) :
  re_match U r s = Some m ->
  exists rest, s = whole m ++ rest /\ denote U r (whole m) [] (caps m).
Proof.
  unfold re_match. intros H. apply run_sound in H.
  destruct H as (pre & rest & g' & -> & Hd & Hk).
  rewrite consumed_app in Hk. injection Hk as <-. simpl. eauto.
Qed.

End MatchFacts.

(* ================================================================== *)
(** * Facts of binary64 arithmetic *)
(* ================================================================== *)

Section FloatFacts.

Lemma leb_zero_nonneg (x : float) :
  (0 <=? x)%float = true <-> sf_nonneg (Prim2SF x).
Proof.
  rewrite leb_spec. change (Prim2SF 0) with (S754_zero false).
  destruct (Prim2SF x) as [s|s| |s m e]; simpl; try destruct s;
    simpl; intuition discriminate.
Qed.

Lemma SFltb_of_not_leb (x y : spec_float) :
  sf_nonneg x -> sf_nonneg y -> SFleb y x = false -> SFltb x y = true.
Proof.
  unfold SFleb, SFltb.
  destruct x as [sx|sx| |sx mx ex], y as [sy|sy| |sy my ey]; simpl;
    try destruct sx; try destruct sy; simpl; try tauto; try discriminate;
    try reflexivity.
  intros _ _.
  rewrite (Z.compare_antisym ey ex).
  destruct (ey ?= ex); simpl; try discriminate; try reflexivity.
  change (Pos.compare_cont Eq my mx) with (Pos.compare my mx).
  change (Pos.compare_cont Eq mx my) with (Pos.compare mx my).
  rewrite (Pos.compare_antisym my mx).
  destruct (my ?= mx)%positive; simpl; try discriminate; reflexivity.
Qed.

Lemma SFltb_leb_trans (x b y : spec_float) :
  sf_nonneg x -> SFltb x b = true -> SFleb b y = true -> SFltb x y = true.
Proof.
  unfold SFleb, SFltb.
  destruct x as [sx|sx| |sx mx ex], b as [sb|sb| |sb mb eb],
    y as [sy|sy| |sy my ey]; simpl;
    try destruct sx; try destruct sb; try destruct sy; simpl;
    try tauto; try discriminate; try reflexivity.
  intros _.
  change (Pos.compare_cont Eq mx mb) with (Pos.compare mx mb).
  change (Pos.compare_cont Eq mb my) with (Pos.compare mb my).
  change (Pos.compare_cont Eq mx my) with (Pos.compare mx my).
  destruct (Z.compare_spec ex eb), (Z.compare_spec eb ey),
    (Z.compare_spec ex ey); try lia; try discriminate; try reflexivity;
    destruct (Pos.compare_spec mx mb), (Pos.compare_spec mb my),
      (Pos.compare_spec mx my); try lia; try discriminate; try reflexivity.
Qed.

Lemma ltb_of_not_leb (x y : float) :
  (0 <=? x)%float = true -> (0 <=? y)%float = true ->
  (y <=? x)%float = false -> (x <? y)%float = true.
Proof.
  rewrite !leb_zero_nonneg, leb_spec, ltb_spec. apply SFltb_of_not_leb.
Qed.

Lemma ltb_leb_trans (x b y : float) :
  (0 <=? x)%float = true -> (x <? b)%float = true ->
  (b <=? y)%float = true -> (x <? y)%float = true.
Proof.
  rewrite leb_zero_nonneg, leb_spec, !ltb_spec. apply SFltb_leb_trans.
Qed.

(** Rounding keeps the sign: shifting a mantissa to the right and rounding it
    to even never take it below zero. *)
Lemma iter_pos_invariant {A : Type} (P : A -> Prop) (f : A -> A) :
  (forall a, P a -> P (f a)) ->
  forall (n : positive) (a : A), P a -> P (iter_pos f n a).
Proof.
  intros Hf. induction n as [n IH|n IH|]; intros a Ha; simpl; auto.
Qed.

Lemma shr_1_nonneg (mrs : shr_record) :
  0 <= shr_m mrs -> 0 <= shr_m (shr_1 mrs).
Proof.
  destruct mrs as [m r s]. simpl.
  destruct m as [|[p|p|]|[p|p|]]; simpl; lia.
Qed.

Lemma shr_fexp_nonneg (m e : Z) (l : location) :
  0 <= m -> 0 <= shr_m (fst (shr_fexp prec emax m e l)).
Proof.
  intros Hm. unfold shr_fexp, shr.
  assert (H0 : 0 <= shr_m (shr_record_of_loc m l))
    by (destruct l as [|[| |]]; simpl; exact Hm).
  destruct (fexp prec emax (Zdigits2 m + e) - e) as [|p|p]; simpl; auto.
  apply (iter_pos_invariant (fun mrs => 0 <= shr_m mrs)); auto.
  apply shr_1_nonneg.
Qed.

Lemma round_nearest_even_nonneg (m : Z) (l : location) :
  0 <= m -> 0 <= round_nearest_even m l.
Proof.
  intros Hm. destruct l as [|[| |]]; simpl; try lia.
  destruct (Z.even m); lia.
Qed.

Lemma binary_round_aux_nonneg (m e : Z) (l : location) :
  0 <= m -> sf_nonneg (binary_round_aux prec emax false m e l).
Proof.
  intros Hm. unfold binary_round_aux.
  pose proof (shr_fexp_nonneg m e l Hm) as H1.
  destruct (shr_fexp prec emax m e l) as [mrs1 e1]. simpl in H1.
  pose proof (shr_fexp_nonneg
                (round_nearest_even (shr_m mrs1) (loc_of_shr_record mrs1))
                e1 loc_Exact (round_nearest_even_nonneg _ _ H1)) as H2.
  destruct (shr_fexp prec emax _ e1 loc_Exact) as [mrs2 e2]. simpl in H2.
  destruct (shr_m mrs2) as [|p|p]; simpl.
  - exact I.
  - destruct (e2 <=? _); simpl; reflexivity.
  - lia.
Qed.

Lemma binary_normalize_nonneg (m e : Z) :
  0 <= m -> sf_nonneg (binary_normalize prec emax m e false).
Proof.
  intros Hm. destruct m as [|p|p]; simpl; auto; [|lia].
  unfold binary_round.
  destruct (shl_align p e _) as [mz ez].
  apply binary_round_aux_nonneg. lia.
Qed.

Lemma SFadd_nonneg (x y : spec_float) :
  sf_nonneg x -> sf_nonneg y -> sf_nonneg (SF64add x y).
Proof.
  destruct x as [sx|sx| |sx mx ex], y as [sy|sy| |sy my ey];
    intros Hx Hy; simpl in Hx, Hy; try tauto; subst;
    try (simpl; auto; fail);
    try (destruct sx; simpl; auto; fail);
    try (destruct sx, sy; simpl; auto; fail).
  cbv beta iota zeta delta [SF64add SFadd cond_Zopp].
  apply binary_normalize_nonneg. lia.
Qed.

Lemma SFmul_nonneg (x : spec_float) (m : positive) (e : Z) :
  sf_nonneg x -> sf_nonneg (SF64mul x (S754_finite false m e)).
Proof.
  destruct x as [sx|sx| |sx mx ex]; intros Hx; simpl in Hx; try tauto; subst;
    try (simpl; auto; fail).
  cbv beta iota zeta delta [SF64mul SFmul xorb].
  apply binary_round_aux_nonneg. lia.
Qed.

(** A mantissa of [d] binary digits lies between 2^(d-1) and 2^d. *)
Lemma digits2_pos_bounds (m : positive) :
  2 ^ (Zpos (digits2_pos m) - 1) <= Zpos m < 2 ^ Zpos (digits2_pos m).
Proof.
  induction m as [m IH|m IH|]; simpl digits2_pos.
  - rewrite Pos2Z.inj_succ. change (Zpos m~1) with (2 * Zpos m + 1).
    replace (Z.succ (Zpos (digits2_pos m)) - 1)
      with (Z.succ (Zpos (digits2_pos m) - 1)) by lia.
    rewrite !Z.pow_succ_r by lia. lia.
  - rewrite Pos2Z.inj_succ. change (Zpos m~0) with (2 * Zpos m).
    replace (Z.succ (Zpos (digits2_pos m)) - 1)
      with (Z.succ (Zpos (digits2_pos m) - 1)) by lia.
    rewrite !Z.pow_succ_r by lia. lia.
  - simpl. lia.
Qed.

Lemma iter_xO_value (m d : positive) :
  Zpos (Pos.iter xO m d) = Zpos m * 2 ^ Zpos d.
Proof.
  induction d as [|d IH] using Pos.peano_ind.
  - simpl. lia.
  - rewrite Pos.iter_succ.
    change (Zpos (Pos.iter xO m d)~0) with (2 * Zpos (Pos.iter xO m d)).
    rewrite IH, Pos2Z.inj_succ, Z.pow_succ_r by lia. lia.
Qed.

Lemma shl_align_value (m : positive) (e e' : Z) :
  e' <= e -> Zpos (fst (shl_align m e e')) = Zpos m * 2 ^ (e - e').
Proof.
  intros Hle. unfold shl_align.
  destruct (e' - e) as [|d|d] eqn:He; simpl fst.
  - replace (e - e') with 0 by lia. simpl. lia.
  - lia.
  - rewrite iter_xO_value. f_equal. f_equal. lia.
Qed.

(** The difference of two doubles that are not below zero has the sign the
    comparison of the two announces. *)
Lemma SFsub_nonneg (x y : spec_float) :
  valid_binary x = true -> valid_binary y = true ->
  sf_nonneg x -> SFltb x y = true -> sf_nonneg (SF64sub y x).
Proof.
  unfold SFltb.
  destruct x as [sx|sx| |sx mx ex], y as [sy|sy| |sy my ey];
    intros Vx Vy Hx Hlt; simpl in Hx, Hlt; try tauto; try discriminate;
    subst;
    try (destruct sy; simpl in *; try discriminate; auto; fail);
    try (destruct sx, sy; simpl in *; try discriminate; auto; fail).
  destruct sy; [discriminate|].
  cbv beta iota zeta delta [SF64sub SFsub cond_Zopp].
  apply binary_normalize_nonneg.
  rewrite !shl_align_value by lia.
  simpl in Vx, Vy. unfold bounded, canonical_mantissa in Vx, Vy.
  apply andb_prop in Vx. destruct Vx as [Cx _].
  apply andb_prop in Vy. destruct Vy as [Cy _].
  apply Z.eqb_eq in Cx. apply Z.eqb_eq in Cy.
  change (fexp prec emax (Zpos (digits2_pos mx) + ex))
    with (Z.max (Zpos (digits2_pos mx) + ex - 53) (-1074)) in Cx.
  change (fexp prec emax (Zpos (digits2_pos my) + ey))
    with (Z.max (Zpos (digits2_pos my) + ey - 53) (-1074)) in Cy.
  pose proof (digits2_pos_bounds mx) as Bx.
  pose proof (digits2_pos_bounds my) as By.
  change (Pos.compare_cont Eq mx my) with (Pos.compare mx my) in Hlt.
  destruct (Z.compare_spec ex ey) as [E|L|G]; try discriminate.
  - subst ey. rewrite Z.min_id, Z.sub_diag. change (2 ^ 0) with 1.
    destruct (Pos.compare_spec mx my); try discriminate. lia.
  - rewrite Z.min_r by lia. rewrite Z.sub_diag. change (2 ^ 0) with 1.
    assert (Dy : Zpos (digits2_pos my) = 53) by lia.
    assert (Dx : Zpos (digits2_pos mx) <= 53) by lia.
    rewrite Dy in By. simpl (53 - 1) in By.
    assert (Px : 2 ^ Zpos (digits2_pos mx) <= 2 ^ 53)
      by (apply Z.pow_le_mono_r; lia).
    assert (P2 : 2 ^ 1 <= 2 ^ (ey - ex)) by (apply Z.pow_le_mono_r; lia).
    change (2 ^ 1) with 2 in P2.
    change (2 ^ 53) with (2 * 2 ^ 52) in Px.
    nia.
Qed.

(** The same facts on the primitive numbers. *)
Lemma add_nonneg (a x : float) :
  (0 <=? a)%float = true -> (0 <=? x)%float = true ->
  (0 <=? a + x)%float = true.
Proof.
  rewrite !leb_zero_nonneg, add_spec. apply SFadd_nonneg.
Qed.

Lemma mul_nonneg (x c : float) (m : positive) (e : Z) :
  Prim2SF c = S754_finite false m e ->
  (0 <=? x)%float = true -> (0 <=? x * c)%float = true.
Proof.
  intros Hc. rewrite !leb_zero_nonneg, mul_spec, Hc. apply SFmul_nonneg.
Qed.

Lemma sub_nonneg (x y : float) :
  (0 <=? x)%float = true -> (x <? y)%float = true ->
  (0 <=? y - x)%float = true.
Proof.
  rewrite !leb_zero_nonneg, sub_spec, ltb_spec.
  apply SFsub_nonneg; apply Prim2SF_valid.
Qed.

End FloatFacts.

(* ================================================================== *)
(** * The time ranges that [parse_time_range] returns *)
(* ================================================================== *)

Ltac break :=
  repeat match goal with
         | H : exists _, _ |- _ => destruct H
         | H : _ /\ _ |- _ => destruct H
         end.

(** Every clock value that can be read is a double that is not below zero,
    and adding a day to it gives 24 or more. *)
Lemma clock_table :
  forallb (fun h =>
    forallb (fun m => ((0 <=? clock h m) && (24 <=? clock h m + 24))%float)
            two_digits) two_digits = true.
Proof. vm_compute. reflexivity. Qed.

Lemma in_two_digits (n : Z) : 0 <= n <= 99 -> In n two_digits.
Proof.
  intros Hn. unfold two_digits. apply in_map_iff.
  exists (Z.to_nat n). split; [lia|]. apply in_seq. lia.
Qed.

Lemma clock_facts (h m : Z) :
  0 <= h <= 99 -> 0 <= m <= 99 ->
  (0 <=? clock h m)%float = true /\ (24 <=? clock h m + 24)%float = true.
Proof.
  intros Hh Hm. pose proof clock_table as T.
  rewrite forallb_forall in T. specialize (T h (in_two_digits h Hh)).
  rewrite forallb_forall in T. specialize (T m (in_two_digits m Hm)).
  apply andb_prop in T. exact T.
Qed.

Section TimeRanges.

Variable U : unicode.

Lemma digit_value_range (d : digit) : 0 <= digit_value d <= 9.
Proof. destruct d; simpl; lia. Qed.

(** A run within the limit of [int] is converted. *)
Lemma py_int_short (p : pystr) :
  p <> [] -> Z.of_nat (length p) <= int_max_str_digits ->
  py_int U p = int_digits U 0 p.
Proof.
  intros Hp Hlen. destruct p as [|x p]; [congruence|]. unfold py_int.
  destruct (int_max_str_digits <? Z.of_nat (length (x :: p))) eqn:E;
    [|reflexivity].
  apply Z.ltb_lt in E. lia.
Qed.

(** [int] of one or two digits is a number from 0 to 99. *)
Lemma py_int_two_digits (lo : nat) (p : pystr) (n : Z) :
  repeats U CDigit lo (Some 2%nat) p -> py_int U p = Some n -> 0 <= n <= 99.
Proof.
  intros (_ & _ & Hlen).
  destruct p as [|a [|b [|c p]]]; simpl in Hlen; try lia;
    [|rewrite py_int_short
        by (try discriminate; unfold int_max_str_digits; simpl length; lia)..];
    cbn [py_int int_digits].
  - discriminate.
  - destruct (decimal U a) as [da|]; [|discriminate].
    intros [= <-]. pose proof (digit_value_range da). lia.
  - destruct (decimal U a) as [da|]; [|discriminate].
    destruct (decimal U b) as [db|]; [|discriminate].
    intros [= <-]. destruct da, db; simpl; lia.
Qed.

(** The shape of a parsed range: two clock values of two-digit fields, the
    second one moved to the next day when it is not after the first. *)
Lemma parse_time_range_inv (s : pystr) (start end_ : float) :
  parse_time_range U s = Some (start, end_) ->
  exists h1 m1 h2 m2,
    start = clock h1 m1
    /\ end_ = (if (clock h2 m2 <=? clock h1 m1)%float
               then (clock h2 m2 + 24)%float else clock h2 m2)
    /\ (0 <= h1 <= 99 /\ 0 <= m1 <= 99) /\ (0 <= h2 <= 99 /\ 0 <= m2 <= 99).
Proof.
  unfold parse_time_range.
  destruct (re_match U time_range_re _) as [m|] eqn:Hm; [|discriminate].
  apply re_match_sound in Hm. destruct Hm as (rest & _ & Hd).
  unfold time_range_re, d12, d2 in Hd. simpl in Hd. break. subst.
  unfold int_group.
  match goal with H : caps m = _ |- _ => rewrite H end.
  simpl group. cbv beta iota.
  repeat match goal with
         | Hr : repeats U CDigit _ _ ?p |- context [py_int U ?p] =>
             let n := fresh "n" in
             let E := fresh "E" in
             destruct (py_int U p) as [n|] eqn:E;
             [pose proof (py_int_two_digits _ _ _ Hr E); clear Hr E
             |discriminate]
         end.
  intros [= <- <-].
  do 4 eexists. split; [reflexivity|]. split; [reflexivity|]. lia.
Qed.

(** A range that starts before 24 ends after it starts, and lasts a time
    that is not below zero. *)
Lemma parsed_range_ordered (s : pystr) (start end_ : float) :
  parse_time_range U s = Some (start, end_) ->
  (start <? 24)%float = true ->
  (0 <=? start)%float = true /\ (start <? end_)%float = true.
Proof.
  intros Hp H24. apply parse_time_range_inv in Hp.
  destruct Hp as (h1 & m1 & h2 & m2 & -> & -> & (Hh1 & Hm1) & (Hh2 & Hm2)).
  destruct (clock_facts h1 m1 Hh1 Hm1) as [P1 _].
  destruct (clock_facts h2 m2 Hh2 Hm2) as [P2 Q2].
  split; [exact P1|].
  destruct (clock h2 m2 <=? clock h1 m1)%float eqn:Hroll.
  - apply ltb_leb_trans with (b := 24%float); assumption.
  - apply ltb_of_not_leb; assumption.
Qed.

End TimeRanges.


(* ================================================================== *)
(** * The totals of [hours_parser] *)
(* ================================================================== *)

Section Substrings.

Lemma substr_refl (s : pystr) : substr s s.
Proof. exists [], []. simpl. now rewrite app_nil_r. Qed.

Lemma substr_trans (t s u : pystr) : substr t s -> substr s u -> substr t u.
Proof.
  intros (a & b & ->) (c & d & ->).
  exists (c ++ a), (b ++ d). now rewrite !app_assoc.
Qed.

Lemma prefixes_in (t b : pystr) : In t (prefixes (t ++ b)).
Proof.
  induction t as [|c t IH]; simpl.
  - destruct b; simpl; auto.
  - right. apply in_map, IH.
Qed.

Lemma substrings_unfold (s : pystr) :
  substrings s =
  prefixes s ++ match s with [] => [] | _ :: s' => substrings s' end.
Proof. destruct s; reflexivity. Qed.

Lemma substrings_in (t s : pystr) : substr t s -> In t (substrings s).
Proof.
  intros (a & b & ->).
  induction a as [|c a IH].
  - simpl app. rewrite substrings_unfold. apply in_or_app. left.
    apply prefixes_in.
  - simpl app. rewrite substrings_unfold. apply in_or_app. right. exact IH.
Qed.

Lemma lstrip_suffix (s : pystr) : exists a, s = a ++ lstrip s.
Proof.
  induction s as [|c s [a IH]]; simpl.
  - exists []. reflexivity.
  - destruct (isspace c).
    + exists (c :: a). simpl. now rewrite <- IH.
    + exists []. reflexivity.
Qed.

Lemma strip_substr (s : pystr) : substr (strip s) s.
Proof.
  unfold strip, rstrip.
  destruct (lstrip_suffix s) as [a Ha].
  destruct (lstrip_suffix (rev (lstrip s))) as [b Hb].
  exists a, (rev b).
  rewrite <- rev_app_distr, <- Hb, rev_involutive. exact Ha.
Qed.

(** The pieces of [split_char]: the first one starts the text, each of the
    others lies in it. *)
Lemma split_char_pieces (sep : char) (s : pystr) :
  match split_char sep s with
  | [] => True
  | seg :: segs =>
      (exists b, s = seg ++ b) /\ forall t, In t segs -> substr t s
  end.
Proof.
  induction s as [|c s IH]; simpl.
  - split; [exists []; reflexivity|]. intros t [].
  - destruct (c =? sep).
    + split; [exists (c :: s); reflexivity|].
      intros t Ht. destruct (split_char sep s) as [|seg segs]; [destruct Ht|].
      destruct IH as [[b Hb] Hrest].
      destruct Ht as [<-|Ht].
      * exists [c], b. simpl. now rewrite <- Hb.
      * destruct (Hrest t Ht) as (a & b' & E).
        exists (c :: a), b'. simpl. now rewrite <- E.
    + destruct (split_char sep s) as [|seg segs].
      * split; [exists s; reflexivity|]. intros t [].
      * destruct IH as [[b Hb] Hrest]. split.
        -- exists b. simpl. now rewrite <- Hb.
        -- intros t Ht. destruct (Hrest t Ht) as (a & b' & E).
           exists (c :: a), b'. simpl. now rewrite <- E.
Qed.

Lemma split_char_substr (sep : char) (s t : pystr) :
  In t (split_char sep s) -> substr t s.
Proof.
  intros Ht. pose proof (split_char_pieces sep s) as H.
  destruct (split_char sep s) as [|seg segs]; [destruct Ht|].
  destruct H as [[b Hb] Hrest].
  destruct Ht as [<-|Ht]; [|auto].
  exists [], b. exact Hb.
Qed.

End Substrings.

Section Totals.

Variable U : unicode.

(** What [re.search] finds lies in the text. *)
Lemma re_search_substr (r : regex) (s : pystr) (m : match_obj) :
  re_search U r s = Some m -> substr (whole m) s.
Proof.
  induction s as [|c s IH]; simpl.
  - destruct (re_match U r []) as [m'|] eqn:Hm; [|discriminate].
    intros [= <-]. apply re_match_sound in Hm. destruct Hm as (rest & E & _).
    exists [], rest. exact E.
  - destruct (re_match U r (c :: s)) as [m'|] eqn:Hm.
    + intros [= <-]. apply re_match_sound in Hm.
      destruct Hm as (rest & E & _). exists [], rest. exact E.
    + intros H. destruct (IH H) as (a & b & E).
      exists (c :: a), b. simpl. now rewrite <- E.
Qed.

(** The time range of a matched segment lies in the segment. *)
Lemma segment_time_part (segment : pystr) (m : match_obj) (time_part : pystr) :
  re_match U segment_re segment = Some m ->
  group 2 (caps m) = Some time_part ->
  substr time_part segment.
Proof.
  intros Hm Hg. apply re_match_sound in Hm. destruct Hm as (rest & E & Hd).
  unfold segment_re, time_token_re, d12, d2 in Hd. simpl in Hd. break. subst.
  match goal with H : caps m = _ |- _ => rewrite H in Hg end.
  simpl in Hg. injection Hg as <-.
  match goal with
  | H : whole m = ?p1 ++ ?p2 ++ ?p3 |- _ =>
      exists (p1 ++ p2), rest; rewrite H; simpl; now rewrite <- !app_assoc
  end.
Qed.

Lemma starts_before_24_early (text : pystr) :
  starts_before_24 U text = true -> early U text.
Proof.
  unfold starts_before_24, early. intros H t start end_ Ht Hp.
  rewrite forallb_forall in H. specialize (H t (substrings_in t text Ht)).
  rewrite Hp in H. exact H.
Qed.

Lemma early_substr (t text : pystr) :
  substr t text -> early U text -> early U t.
Proof.
  intros Ht He u start end_ Hu. apply He. eapply substr_trans; eassumption.
Qed.

(** A range read in such a text lasts a time that is not below zero. *)
Lemma early_hours (text t : pystr) (start end_ : float) :
  early U text -> substr t text ->
  parse_time_range U t = Some (start, end_) ->
  (0 <=? end_ - start)%float = true.
Proof.
  intros He Ht Hp.
  destruct (parsed_range_ordered U t start end_ Hp (He t start end_ Ht Hp))
    as [H0 Hlt].
  apply sub_nonneg; assumption.
Qed.

Lemma mul_const_nonneg (x c : float) :
  match Prim2SF c with S754_finite false _ _ => true | _ => false end = true ->
  (0 <=? x)%float = true -> (0 <=? x * c)%float = true.
Proof.
  destruct (Prim2SF c) as [| | |[|] m e] eqn:Hc; try discriminate.
  intros _. apply (mul_nonneg x c m e Hc).
Qed.

Lemma add_day_ok (hours : float) (t : totals) (d : pystr) :
  (0 <=? hours)%float = true -> totals_ok t -> totals_ok (add_day hours t d).
Proof.
  intros Hh [Hw He]. unfold add_day.
  destruct (mem d WEEK_DAYS); [|destruct (mem d WEEKEND_DAYS)];
    split; simpl; auto using add_nonneg.
Qed.

Lemma add_days_ok (hours : float) (days : list pystr) :
  (0 <=? hours)%float = true ->
  forall t, totals_ok t -> totals_ok (fold_left (add_day hours) days t).
Proof.
  intros Hh. induction days as [|d days IH]; intros t Ht; simpl; auto.
  apply IH, add_day_ok; assumption.
Qed.

Lemma add_segment_ok (t : totals) (segment : pystr) :
  early U segment -> totals_ok t -> totals_ok (add_segment U t segment).
Proof.
  intros He Ht. unfold add_segment.
  destruct (re_match U segment_re (strip segment)) as [m|] eqn:Hm; [|exact Ht].
  destruct (group 1 (caps m)) as [days_part|]; [|exact Ht].
  destruct (group 2 (caps m)) as [time_part|] eqn:Hg; [|exact Ht].
  destruct (parse_time_range U time_part) as [[start end_]|] eqn:Hp;
    [|exact Ht].
  apply add_days_ok.
  - apply (early_hours segment time_part); auto.
    apply substr_trans with (s := strip segment).
    + eapply segment_time_part; eassumption.
    + apply strip_substr.
  - destruct Ht as [Hw Hwe]. split; simpl; assumption.
Qed.

Lemma add_segments_ok (text : pystr) (segments : list pystr) :
  early U text -> (forall seg, In seg segments -> substr seg text) ->
  forall t, totals_ok t -> totals_ok (fold_left (add_segment U) segments t).
Proof.
  intros He. induction segments as [|seg segments IH]; intros Hin t Ht;
    simpl; auto.
  apply IH.
  - intros seg' Hs. apply Hin. right. exact Hs.
  - apply add_segment_ok; auto.
    apply (early_substr seg text); auto. apply Hin. left. reflexivity.
Qed.

(** The segment loop of [hours_parser], run on the whole text. *)
Lemma segment_loop_ok (text : pystr) :
  early U text ->
  totals_ok (fold_left (add_segment U) (split_char semicolon text) totals0).
Proof.
  intros He. apply (add_segments_ok text); auto.
  - apply split_char_substr.
  - split; reflexivity.
Qed.

End Totals.

(* ================================================================== *)
(** * The properties claimed of the parser *)
(* ================================================================== *)

(** The examples of the docstrings, run. *)
Lemma docstring_examples :
  parse_time_range cpython (py "22:00-02:00") = Some (22, 26)%float
  /\ parse_time_range cpython (py "10:00-18:30") = Some (10, 18.5)%float
  /\ parse_time_range cpython (py "10:00–18:30") = Some (10, 18.5)%float
  /\ parse_time_range cpython (py "с 10 до 18") = None
  /\ expand_days cpython (py "пн-пт")
     = [py "пн"; py "вт"; py "ср"; py "чт"; py "пт"]
  /\ expand_days cpython (py "сб,вс") = [py "сб"; py "вс"]
  /\ expand_days cpython (py "xx-yy") = []
  /\ intersects_day 6 22 = true /\ intersects_day 0 6 = false
  /\ intersects_day 22 24 = false
  /\ intersects_night 20 23 = true /\ intersects_night 8 18 = false
  /\ hours_parser cpython (Some (py "ежедневно, круглосуточно")) = full_time
  /\ hours_parser cpython (Some (py "пн-вс круглосуточно")) = full_time
  /\ hours_parser cpython (Some (py "ежедневно 10:00-22:00")) =
     {| is_24_7 := false; is_night := false; is_day := true;
        on_week := true; on_weekend := true;
        hours_on_week := PyFloat 60; hours_on_weekend := PyFloat 24 |}.
Proof. repeat split; vm_compute; reflexivity. Qed.

(** The second test of [is_24_7] as it is written: a text that starts with
    "ежедневно" and whose first time range starts at 0 and lasts 23.99 hours
    or more is full-time. *)
Lemma daily_full_day (U : unicode) (raw : pystr) (start end_ : float) :
  startswith every_day (normalize U raw) = true ->
  first_time_range U (normalize U raw) = Some (start, end_) ->
  (start =? 0)%float = true ->
  (23.99 <=? end_ - start)%float = true ->
  hours_parser U (Some raw) = full_time.
Proof.
  intros Hs Hf H0 Hlen. unfold hours_parser, detect_24_7.
  rewrite Hs, Hf, H0, Hlen. simpl.
  destruct (_ || _); reflexivity.
Qed.

(** [C1]: on "ежедневно 00:00-23:59" the range parses to start 0 and end
    23 + 59/60, whose length 23.98... is below the bound 23.99 of the test, so
    the record is not the full-time one; the docstring of [hours_parser]
    lists this input among those that are.  "ежедневно 00:00-24:00" and
    "ежедневно 00:00-00:00" do pass the test. *)
Theorem daily_2359_not_full_time :
  parse_time_range cpython (py "00:00-23:59") = Some (0, 23 + 59 / 60)%float
  /\ (23.99 <=? (23 + 59 / 60) - 0)%float = false
  /\ hours_parser cpython (Some (py "ежедневно 00:00-23:59")) =
     {| is_24_7 := false; is_night := true; is_day := true;
        on_week := true; on_weekend := true;
        hours_on_week := PyFloat ((23 + 59 / 60 - 0) * 5);
        hours_on_weekend := PyFloat ((23 + 59 / 60 - 0) * 2) |}
  /\ is_24_7 (hours_parser cpython (Some (py "ежедневно 00:00-24:00"))) = true
  /\ is_24_7 (hours_parser cpython (Some (py "ежедневно 00:00-00:00"))) = true.
Proof. repeat split; vm_compute; reflexivity. Qed.

(** [C2], as the source has it: the fields of a range are not checked
    against the clock, and a range that starts at 24 or later can end before
    it starts. *)
Lemma rollover_not_enough :
  exists start end_,
    parse_time_range cpython (py "30:00-01:00") = Some (start, end_)
    /\ start = 30%float /\ end_ = 25%float
    /\ (start <? end_)%float = false.
Proof. exists 30%float, 25%float. repeat split. Qed.

(** [C2], amended: every accepted range whose start is before 24 hours is
    returned with [end > start]. *)
Theorem end_after_start (U : unicode) (s : pystr) (start end_ : float) :
  parse_time_range U s = Some (start, end_) ->
  (start <? 24)%float = true ->
  (start <? end_)%float = true.
Proof.
  intros Hp H24. exact (proj2 (parsed_range_ordered U s start end_ Hp H24)).
Qed.

Lemma end_after_start_witness :
  parse_time_range cpython (py "22:00-02:00") = Some (22, 26)%float
  /\ (22 <? 26)%float = true.
Proof.
  split; [reflexivity|].
  apply (end_after_start cpython (py "22:00-02:00") 22 26); reflexivity.
Defined.

(** [C3], as the source has it: a range that starts at 24 hours or later and
    is moved to the next day lasts a negative time, and the totals follow. *)
Lemma negative_hours :
  hours_parser cpython (Some (py "ежедневно 30:00-01:00")) =
  {| is_24_7 := false; is_night := false; is_day := false;
     on_week := true; on_weekend := true;
     hours_on_week := PyFloat (-25); hours_on_weekend := PyFloat (-10) |}
  /\ nonneg (hours_on_week
               (hours_parser cpython (Some (py "ежедневно 30:00-01:00"))))
     = false
  /\ nonneg (hours_on_weekend
               (hours_parser cpython (Some (py "сб 30:00-01:00")))) = false.
Proof. repeat split. Qed.

(** [C3], amended: for a missing value, and for every text in which each time
    range that can be read starts before 24 hours, the two totals returned by
    [hours_parser] are not below zero. *)
Theorem hours_not_negative (U : unicode) (hours_str : option pystr) :
  clock_times U hours_str = true ->
  nonneg (hours_on_week (hours_parser U hours_str)) = true
  /\ nonneg (hours_on_weekend (hours_parser U hours_str)) = true.
Proof.
  destruct hours_str as [raw|]; [|intros _; split; reflexivity].
  simpl clock_times. intros Hc. apply starts_before_24_early in Hc.
  unfold hours_parser.
  destruct (detect_24_7 U (normalize U raw)); [split; reflexivity|].
  pose proof (segment_loop_ok U (normalize U raw) Hc) as [Hw He].
  destruct (startswith every_day (normalize U raw));
    [|split; simpl; assumption].
  unfold first_time_range.
  destruct (re_search U time_token_re (normalize U raw)) as [m|] eqn:Hs;
    [|split; simpl; assumption].
  destruct (parse_time_range U (whole m)) as [[start end_]|] eqn:Hp;
    [|split; simpl; assumption].
  pose proof (early_hours U _ _ _ _ Hc (re_search_substr U _ _ _ Hs) Hp) as Hh.
  split; simpl; apply mul_const_nonneg; auto.
Qed.

Lemma hours_not_negative_witness :
  nonneg (hours_on_week
            (hours_parser cpython (Some (py "пн-пт 22:00-02:00; сб 10:00-16:00"))))
  = true
  /\ nonneg (hours_on_weekend
               (hours_parser cpython (Some (py "пн-пт 22:00-02:00; сб 10:00-16:00"))))
     = true.
Proof.
  apply (hours_not_negative cpython
           (Some (py "пн-пт 22:00-02:00; сб 10:00-16:00"))).
  vm_compute. reflexivity.
Defined.

(** [C4]: whenever the record returned by [hours_parser] has [is_24_7] set,
    the four other flags are set and the totals are 120 and 48. *)
Theorem full_time_saturated (U : unicode) (hours_str : option pystr) :
  is_24_7 (hours_parser U hours_str) = true ->
  let r := hours_parser U hours_str in
  is_night r = true /\ is_day r = true /\ on_week r = true
  /\ on_weekend r = true
  /\ hours_on_week r = PyInt 120 /\ hours_on_weekend r = PyInt 48.
Proof.
  unfold hours_parser.
  destruct hours_str as [raw|]; [|discriminate].
  destruct (detect_24_7 U (normalize U raw)).
  - intros _. cbv zeta. repeat split.
  - destruct (if startswith every_day (normalize U raw)
              then first_time_range U (normalize U raw) else None)
      as [[start end_]|]; simpl; discriminate.
Qed.

Lemma full_time_saturated_witness :
  is_night (hours_parser cpython (Some (py "ежедневно, круглосуточно"))) = true
  /\ hours_on_week (hours_parser cpython (Some (py "ежедневно, круглосуточно")))
     = PyInt 120.
Proof.
  pose proof (full_time_saturated cpython
                (Some (py "ежедневно, круглосуточно"))) as H.
  cbv zeta in H.
  destruct H as (Hn & _ & _ & _ & Hw & _); [vm_compute; reflexivity|].
  split; assumption.
Defined.

(** [C6]: the key that [parse_middle_beer_cup] looks for is
    "цена бокала пива", without the colon of the docstring: a text that has
    the words and no colon yields its number, not "no value".  With the colon
    the documented results are returned. *)
Theorem beer_key_without_colon :
  contains (py "цена бокала пива:") (py "цена бокала пива 150") = false
  /\ parse_middle_beer_cup cpython (Some (py "цена бокала пива 150"))
     = Returns 150%float
  /\ parse_middle_beer_cup cpython (Some (py "цена бокала пива: 150"))
     = Returns 150%float
  /\ parse_middle_beer_cup cpython (Some (py "цена бокала пива: 100-200"))
     = Returns 150%float
  /\ parse_middle_beer_cup cpython (Some (py "цена бокала пива: 100-200, 900"))
     = Returns 150%float
  /\ parse_middle_beer_cup cpython (Some (py "цена бокала пива: уточняйте"))
     = Returns nan
  /\ parse_middle_beer_cup cpython (Some (py "нет данных")) = Returns nan
  /\ parse_middle_beer_cup cpython None = Returns nan.
Proof. repeat split; vm_compute; reflexivity. Qed.

(** [C7]: a range of two day names expands to the days between the two
    positions in [order], both included, when the first position is not after
    the second one, and to no day at all when it is. *)
Theorem expand_days_range (d1 d2 : pystr) (i1 i2 : nat) :
  nth_error order i1 = Some d1 ->
  nth_error order i2 = Some d2 ->
  ((i1 <= i2)%nat ->
   expand_days cpython (d1 ++ hyphen :: d2) = slice order i1 (i2 + 1))
  /\ ((i1 > i2)%nat -> expand_days cpython (d1 ++ hyphen :: d2) = []).
Proof.
  intros H1 H2.
  assert (Hi1 : (i1 < 7)%nat)
    by (change 7%nat with (length order); apply nth_error_Some; congruence).
  assert (Hi2 : (i2 < 7)%nat)
    by (change 7%nat with (length order); apply nth_error_Some; congruence).
  assert (E1 : (i1 = 0 \/ i1 = 1 \/ i1 = 2 \/ i1 = 3 \/ i1 = 4 \/ i1 = 5
                \/ i1 = 6)%nat) by lia.
  assert (E2 : (i2 = 0 \/ i2 = 1 \/ i2 = 2 \/ i2 = 3 \/ i2 = 4 \/ i2 = 5
                \/ i2 = 6)%nat) by lia.
  clear Hi1 Hi2.
  decompose [or] E1; decompose [or] E2; subst i1 i2;
    injection H1 as <-; injection H2 as <-;
    (split; intros Hle; [try lia | try lia]; vm_compute; reflexivity).
Qed.

Lemma expand_days_range_witness :
  expand_days cpython (py "пн-пт") =
  [py "пн"; py "вт"; py "ср"; py "чт"; py "пт"].
Proof.
  exact (proj1 (expand_days_range (py "пн") (py "пт") 0 4
                  eq_refl eq_refl) (Nat.le_0_l 4)).
Defined.

(** [C8]: an interval that starts within the day, [0 <= start < 24], and ends
    after midnight, [end > 24], meets the night: the window from 22 to 24 is
    compared with it in absolute hours. *)
Theorem rolled_over_is_night (start end_ : float) :
  (0 <=? start)%float = true ->
  (start <? 24)%float = true ->
  (24 <? end_)%float = true ->
  intersects_night start end_ = true.
Proof.
  intros _ Hlt Hend.
  unfold intersects_night, night_ranges. simpl existsb.
  unfold py_max, py_min. simpl fst. simpl snd.
  rewrite Hend.
  destruct (start <? 22)%float.
  - reflexivity.
  - rewrite Hlt. reflexivity.
Qed.

Lemma rolled_over_is_night_witness : intersects_night 22 26 = true.
Proof.
  apply (rolled_over_is_night 22 26); vm_compute; reflexivity.
Defined.

(** [C9]: for a missing value [hours_parser] returns the record whose five
    flags are false and whose two totals are 0.0; no text is read (the tables
    [U] are not consulted) and nothing is raised (the result is a record). *)
Theorem hours_parser_missing (U : unicode) :
  hours_parser U None =
  {| is_24_7 := false; is_night := false; is_day := false;
     on_week := false; on_weekend := false;
     hours_on_week := PyFloat 0; hours_on_weekend := PyFloat 0 |}.
Proof. reflexivity. Qed.

(* ================================================================== *)
(** * The order of the doubles *)
(* ================================================================== *)

Section FloatOrder.

Lemma SFltb_lt (x y : spec_float) : SFltb x y = true <-> sf_lt x y.
Proof.
  unfold SFltb, sf_lt, lt3.
  destruct x as [sx|sx| |sx mx ex], y as [sy|sy| |sy my ey]; simpl;
    try destruct sx; try destruct sy; simpl;
    try (change (Pos.compare_cont Eq mx my) with (Pos.compare mx my));
    try (destruct (Z.compare_spec ex ey) as [He|He|He];
         try destruct (Pos.compare_spec mx my) as [Hm|Hm|Hm]);
    simpl;
    (split; [intros Hc; try discriminate Hc; lia
            |intros Hk; try reflexivity; lia]).
Qed.

Lemma SFleb_le (x y : spec_float) : SFleb x y = true <-> sf_le x y.
Proof.
  unfold SFleb, sf_le, lt3, eq3.
  destruct x as [sx|sx| |sx mx ex], y as [sy|sy| |sy my ey]; simpl;
    try destruct sx; try destruct sy; simpl;
    try (change (Pos.compare_cont Eq mx my) with (Pos.compare mx my));
    try (destruct (Z.compare_spec ex ey) as [He|He|He];
         try destruct (Pos.compare_spec mx my) as [Hm|Hm|Hm]);
    simpl;
    (split; [intros Hc; try discriminate Hc; lia
            |intros Hk; try reflexivity; lia]).
Qed.

Lemma ltb_lt (x y : float) :
  (x <? y)%float = true <-> sf_lt (Prim2SF x) (Prim2SF y).
Proof. rewrite ltb_spec. apply SFltb_lt. Qed.

Lemma leb_le (x y : float) :
  (x <=? y)%float = true <-> sf_le (Prim2SF x) (Prim2SF y).
Proof. rewrite leb_spec. apply SFleb_le. Qed.

Lemma ltb_nlt (x y : float) :
  (x <? y)%float = false <-> ~ sf_lt (Prim2SF x) (Prim2SF y).
Proof.
  rewrite <- ltb_lt. destruct (x <? y)%float; split; intros H;
    try discriminate; try reflexivity; try (intros H'; discriminate H').
  exfalso. apply H. reflexivity.
Qed.

Lemma leb_nle (x y : float) :
  (x <=? y)%float = false <-> ~ sf_le (Prim2SF x) (Prim2SF y).
Proof.
  rewrite <- leb_le. destruct (x <=? y)%float; split; intros H;
    try discriminate; try reflexivity; try (intros H'; discriminate H').
  exfalso. apply H. reflexivity.
Qed.

End FloatOrder.

(** Comparisons of doubles, decided on the keys. *)
Ltac sf_consts :=
  repeat match goal with
         | |- context [Prim2SF ?c] =>
             tryif is_var c then fail
             else (let v := eval vm_compute in (Prim2SF c) in
                   change (Prim2SF c) with v in *)
         | H : context [Prim2SF ?c] |- _ =>
             tryif is_var c then fail
             else (let v := eval vm_compute in (Prim2SF c) in
                   change (Prim2SF c) with v in *)
         end.

Ltac sf_abstract x :=
  let sx := fresh "sx" in
  let E := fresh "E" in
  remember (Prim2SF x) as sx eqn:E; clear E;
  let kx := fresh "k" in
  let F := fresh "F" in
  remember (sf_key sx) as kx eqn:F; clear F;
  let nx := fresh "n" in
  let G := fresh "G" in
  remember (sf_nan sx) as nx eqn:G; clear G;
  destruct kx as [[? ?] ?].

Ltac sf_vars :=
  repeat match goal with
         | H : context [Prim2SF ?x] |- _ => is_var x; sf_abstract x
         | |- context [Prim2SF ?x] => is_var x; sf_abstract x
         end.

Ltac float_order :=
  rewrite ?ltb_lt, ?leb_le, ?ltb_nlt, ?leb_nle in *;
  sf_consts; unfold sf_lt, sf_le in *; cbn [sf_key sf_nan] in *; sf_vars;
  unfold lt3, eq3 in *; cbn [fst snd] in *; lia.

Section Windows.

(** With [start < end], the day window is met exactly when the interval
    starts before 22 and ends after 6. *)
Lemma day_window (start end_ : float) :
  (start <? end_)%float = true ->
  intersects_day start end_ = (start <? 22)%float && (6 <? end_)%float.
Proof.
  intros H. unfold intersects_day, py_max, py_min, DAY_START, DAY_END.
  destruct (start <? 6)%float eqn:A, (22 <? end_)%float eqn:B,
    (start <? 22)%float eqn:C, (6 <? end_)%float eqn:D;
    rewrite ?H, ?C, ?D; try reflexivity; exfalso; float_order.
Qed.

(** With [0 <= start < 24] and [start < end], the night windows are met
    exactly when the interval starts before 6 or ends after 22. *)
Lemma night_window (start end_ : float) :
  (0 <=? start)%float = true ->
  (start <? 24)%float = true ->
  (start <? end_)%float = true ->
  intersects_night start end_ = (start <? 6)%float || (22 <? end_)%float.
Proof.
  intros H0 H24 H.
  assert (N : (start <? 0)%float = false) by float_order.
  unfold intersects_night, night_ranges. simpl existsb.
  unfold py_max, py_min. simpl fst. simpl snd. rewrite N, orb_false_r.
  destruct (start <? 6)%float eqn:A.
  - simpl. destruct (6 <? end_)%float; rewrite ?A, ?H; apply orb_true_r.
  - simpl.
    assert (D : (6 <? end_)%float = true) by float_order.
    rewrite D, A, orb_false_r.
    destruct (22 <? end_)%float eqn:B, (start <? 22)%float eqn:C,
      (24 <? end_)%float eqn:E; rewrite ?H24, ?H, ?B; try reflexivity;
      exfalso; float_order.
Qed.

End Windows.

(* ================================================================== *)
(** * Further properties of the parser *)
(* ================================================================== *)

(** [X4]: for an interval with [start < end], [intersects_day] holds exactly
    when the interval starts before 22 and ends after 6.  So an interval that
    starts at 22 or later never meets the day, however far past midnight it
    runs: the window of the next morning is not looked at. *)
Theorem intersects_day_exact (start end_ : float) :
  (start <? end_)%float = true ->
  intersects_day start end_ = (start <? 22)%float && (6 <? end_)%float
  /\ ((22 <=? start)%float = true -> intersects_day start end_ = false).
Proof.
  intros H. pose proof (day_window start end_ H) as E. split; [exact E|].
  intros L. rewrite E.
  assert (C : (start <? 22)%float = false) by float_order.
  rewrite C. reflexivity.
Qed.

Lemma intersects_day_exact_witness :
  intersects_day 23 33 = (23 <? 22)%float && (6 <? 33)%float
  /\ intersects_day 23 33 = false.
Proof.
  destruct (intersects_day_exact 23 33 eq_refl) as [E F].
  split; [exact E|exact (F eq_refl)].
Defined.

(** [X5]: for an interval that starts within the day, [0 <= start < 24], and
    has [start < end], [intersects_night] holds exactly when the interval
    starts before 6 or ends after 22. *)
Theorem intersects_night_exact (start end_ : float) :
  (0 <=? start)%float = true ->
  (start <? 24)%float = true ->
  (start <? end_)%float = true ->
  intersects_night start end_ = (start <? 6)%float || (22 <? end_)%float.
Proof. apply night_window. Qed.

Lemma intersects_night_exact_witness :
  intersects_night 20 23 = (20 <? 6)%float || (22 <? 23)%float.
Proof.
  apply (intersects_night_exact 20 23); reflexivity.
Defined.

(** [X6]: every range that [parse_time_range] returns with a start before 24
    hours is classified: it meets the day or the night, or both. *)
Theorem parsed_range_classified (U : unicode) (s : pystr) (start end_ : float) :
  parse_time_range U s = Some (start, end_) ->
  (start <? 24)%float = true ->
  intersects_day start end_ || intersects_night start end_ = true.
Proof.
  intros Hp H24.
  destruct (parsed_range_ordered U s start end_ Hp H24) as [H0 Hlt].
  rewrite (day_window start end_ Hlt), (night_window start end_ H0 H24 Hlt).
  destruct (start <? 22)%float eqn:C, (6 <? end_)%float eqn:D,
    (start <? 6)%float eqn:A, (22 <? end_)%float eqn:B;
    try reflexivity; exfalso; float_order.
Qed.

Lemma parsed_range_classified_witness :
  intersects_day 22 26 || intersects_night 22 26 = true.
Proof.
  apply (parsed_range_classified cpython (py "22:00-02:00") 22 26);
    reflexivity.
Defined.

Section TimeRangeReading.

Variable U : unicode.

(** Every clock value that can be read, and the same moved to the next day,
    stay below 101 and 125 hours. *)
Lemma clock_ceiling :
  forallb (fun h =>
    forallb (fun m => ((clock h m <? 101) && (clock h m + 24 <? 125))%float)
            two_digits) two_digits = true.
Proof. vm_compute. reflexivity. Qed.

Lemma clock_below (h m : Z) :
  0 <= h <= 99 -> 0 <= m <= 99 ->
  (clock h m <? 101)%float = true /\ (clock h m + 24 <? 125)%float = true.
Proof.
  intros Hh Hm. pose proof clock_ceiling as T.
  rewrite forallb_forall in T. specialize (T h (in_two_digits h Hh)).
  rewrite forallb_forall in T. specialize (T m (in_two_digits m Hm)).
  apply andb_prop in T. exact T.
Qed.

(** [int] of a run of digits succeeds. *)
Lemma int_digits_some (p : pystr) :
  Forall (fun x => cmatch U CDigit x = true) p ->
  forall acc, 0 <= acc -> exists n, int_digits U acc p = Some n /\ 0 <= n.
Proof.
  induction 1 as [|x p Hx _ IH]; intros acc Hacc; cbn [int_digits].
  - exists acc. auto.
  - cbn [cmatch] in Hx. destruct (decimal U x) as [d|]; [|discriminate].
    apply IH. pose proof (digit_value_range d). lia.
Qed.

Lemma py_int_some (lo : nat) (p : pystr) :
  repeats U CDigit (S lo) None p ->
  Z.of_nat (length p) <= int_max_str_digits ->
  exists n, py_int U p = Some n /\ 0 <= n.
Proof.
  intros (Hall & Hlen & _) Hmax.
  rewrite py_int_short; [|destruct p; [simpl in Hlen; lia|discriminate]|exact Hmax].
  apply int_digits_some; [exact Hall|lia].
Qed.

Lemma py_int_field (lo hi : nat) (p : pystr) :
  repeats U CDigit (S lo) (Some hi) p -> (hi <= 2)%nat ->
  exists n, py_int U p = Some n /\ 0 <= n.
Proof.
  intros (Hall & Hlen & Hhi) H2.
  apply (py_int_some lo p); [repeat split; assumption|].
  unfold int_max_str_digits. lia.
Qed.

(** The groups of a match of [time_range_re] are runs of digits. *)
Lemma time_range_groups (s : pystr) (m : match_obj) :
  re_match U time_range_re s = Some m ->
  exists h1 m1 h2 m2,
    int_group U m 1 = Some h1 /\ int_group U m 2 = Some m1
    /\ int_group U m 3 = Some h2 /\ int_group U m 4 = Some m2.
Proof.
  intros Hm. apply re_match_sound in Hm. destruct Hm as (rest & _ & Hd).
  unfold time_range_re, d12, d2 in Hd. simpl in Hd. break. subst.
  unfold int_group.
  match goal with H : caps m = _ |- _ => rewrite H end.
  simpl group. cbv beta iota.
  repeat match goal with
         | Hr : repeats U CDigit (S _) _ ?p |- context [py_int U ?p] =>
             let n := fresh "n" in
             let E := fresh "E" in
             destruct (py_int_field _ _ _ Hr ltac:(lia)) as (n & E & _);
             rewrite E; clear Hr E
         end.
  eauto 10.
Qed.

End TimeRangeReading.

(** [X1]: the two numbers that [parse_time_range] returns are never negative
    and never beyond what two digits can say: [0 <= start < 101] and
    [0 <= end < 125]. *)
Theorem parse_time_range_bounds (U : unicode) (s : pystr) (start end_ : float) :
  parse_time_range U s = Some (start, end_) ->
  ((0 <=? start)%float = true /\ (start <? 101)%float = true)
  /\ ((0 <=? end_)%float = true /\ (end_ <? 125)%float = true).
Proof.
  intros Hp. apply parse_time_range_inv in Hp.
  destruct Hp as (h1 & m1 & h2 & m2 & -> & -> & (Hh1 & Hm1) & (Hh2 & Hm2)).
  destruct (clock_facts h1 m1 Hh1 Hm1) as [P1 _].
  destruct (clock_facts h2 m2 Hh2 Hm2) as [P2 Q2].
  destruct (clock_below h1 m1 Hh1 Hm1) as [B1 _].
  destruct (clock_below h2 m2 Hh2 Hm2) as [B2 C2].
  split; [split; assumption|].
  destruct (clock h2 m2 <=? clock h1 m1)%float.
  - split; [|exact C2].
    generalize dependent (clock h2 m2 + 24)%float. intros e He _.
    clear - He. float_order.
  - split; [exact P2|].
    generalize dependent (clock h2 m2). intros e _ _ He _.
    clear - He. float_order.
Qed.

Lemma parse_time_range_bounds_witness :
  ((0 <=? 30)%float = true /\ (30 <? 101)%float = true)
  /\ ((0 <=? 25)%float = true /\ (25 <? 125)%float = true).
Proof.
  apply (parse_time_range_bounds cpython (py "30:00-01:00") 30 25).
  reflexivity.
Defined.

(** [X2]: [parse_time_range] returns no pair exactly when the pattern does not
    match at the start of the text (the long dash read as a hyphen): once the
    pattern matches, the four conversions by [int] succeed. *)
Theorem parse_time_range_total (U : unicode) (s : pystr) :
  parse_time_range U s = None
  <-> re_match U time_range_re (replace_char en_dash hyphen s) = None.
Proof.
  unfold parse_time_range.
  destruct (re_match U time_range_re (replace_char en_dash hyphen s))
    as [m|] eqn:Hm; [|tauto].
  destruct (time_range_groups U _ m Hm) as (h1 & m1 & h2 & m2 & E1 & E2 & E3 & E4).
  rewrite E1, E2, E3, E4. split; discriminate.
Qed.

Section Reading.

Variable U : unicode.

(** Greedy repetition reads a run of the class whole when the run is as long
    as allowed or is followed by a character outside the class. *)
Lemma rep_exact {R : Type} (c : cclass) (p : pystr) :
  Forall (fun x => cmatch U c x = true) p ->
  forall (lo hi : nat) (rest : pystr) (k : pystr -> option R) (v : R),
    (lo <= length p)%nat -> (length p <= hi)%nat ->
    (length p = hi
     \/ match rest with [] => True | x :: _ => cmatch U c x = false end) ->
    k rest = Some v ->
    rep U c lo (Some hi) (p ++ rest) k = Some v.
Proof.
  induction 1 as [|a p Ha _ IH]; intros lo hi rest k v Hlo Hhi Hstop Hk.
  - simpl in Hlo. assert (lo = 0)%nat by lia. subst lo. simpl app.
    destruct rest as [|x r]; simpl; [exact Hk|].
    destruct Hstop as [E|E].
    + simpl in E. subst hi. simpl. exact Hk.
    + rewrite E, andb_false_r. exact Hk.
  - destruct hi as [|hi]; [simpl in Hhi; lia|].
    simpl. rewrite Ha.
    rewrite (IH (Nat.pred lo) hi rest k v); auto; simpl in *; try lia.
    destruct Hstop; [left; lia|right; auto].
Qed.

Lemma int_digits_all (p : pystr) :
  forall acc n, int_digits U acc p = Some n ->
                Forall (fun x => cmatch U CDigit x = true) p.
Proof.
  induction p as [|x p IH]; intros acc n H; [constructor|].
  cbn [int_digits] in H. destruct (decimal U x) as [d|] eqn:E; [|discriminate].
  constructor; [cbn [cmatch]; now rewrite E|]. eapply IH, H.
Qed.

Lemma py_int_digits (p : pystr) (n : Z) :
  py_int U p = Some n ->
  Forall (fun x => cmatch U CDigit x = true) p /\ (1 <= length p)%nat.
Proof.
  destruct p as [|x p]; [discriminate|]. unfold py_int.
  destruct (int_max_str_digits <? Z.of_nat (length (x :: p)));
    [discriminate|].
  intros H. split; [eapply int_digits_all, H|simpl; lia].
Qed.

Lemma replace_char_app (a b : char) (x y : pystr) :
  replace_char a b (x ++ y) = replace_char a b x ++ replace_char a b y.
Proof. apply map_app. Qed.

Lemma replace_char_cons (a b c : char) (x : pystr) :
  replace_char a b (c :: x) = (if c =? a then b else c) :: replace_char a b x.
Proof. reflexivity. Qed.

(** A run of digits holds no long dash when the long dash is no digit. *)
Lemma replace_digits (p : pystr) :
  decimal U en_dash = None ->
  Forall (fun x => cmatch U CDigit x = true) p ->
  replace_char en_dash hyphen p = p.
Proof.
  intros Hd. induction 1 as [|x p Hx _ IH]; [reflexivity|].
  unfold replace_char in *. cbn [map]. rewrite IH. f_equal.
  destruct (x =? en_dash) eqn:E; [|reflexivity].
  apply Z.eqb_eq in E. subst x. cbn [cmatch] in Hx. rewrite Hd in Hx.
  discriminate.
Qed.

Lemma time_range_match (p1 p2 p3 p4 tail : pystr) :
  decimal U colon = None -> decimal U hyphen = None ->
  Forall (fun x => cmatch U CDigit x = true) p1 ->
  (1 <= length p1 <= 2)%nat ->
  Forall (fun x => cmatch U CDigit x = true) p2 -> length p2 = 2%nat ->
  Forall (fun x => cmatch U CDigit x = true) p3 ->
  (1 <= length p3 <= 2)%nat ->
  Forall (fun x => cmatch U CDigit x = true) p4 -> length p4 = 2%nat ->
  re_match U time_range_re
    (p1 ++ colon :: p2 ++ hyphen :: p3 ++ colon :: p4 ++ tail)
  = Some {| whole := p1 ++ colon :: p2 ++ hyphen :: p3 ++ colon :: p4;
            caps := [(4%nat, p4); (3%nat, p3); (2%nat, p2); (1%nat, p1)] |}.
Proof.
  intros Hc Hh D1 L1 D2 L2 D3 L3 D4 L4.
  assert (Nc : cmatch U CDigit colon = false) by (cbn [cmatch]; now rewrite Hc).
  assert (Nh : cmatch U CDigit hyphen = false) by (cbn [cmatch]; now rewrite Hh).
  unfold re_match, time_range_re, d12, d2. cbn [run].
  apply rep_exact; auto; try lia.
  rewrite consumed_app. cbn [startswith length skipn].
  rewrite Z.eqb_refl. cbn [andb].
  apply rep_exact; auto; try lia.
  rewrite consumed_app. cbn [startswith length skipn].
  rewrite Z.eqb_refl. cbn [andb].
  apply rep_exact; auto; try lia.
  rewrite consumed_app. cbn [startswith length skipn].
  rewrite Z.eqb_refl. cbn [andb].
  apply rep_exact; auto; try lia.
  rewrite consumed_app. f_equal. f_equal.
  replace (p1 ++ colon :: p2 ++ hyphen :: p3 ++ colon :: p4 ++ tail)
    with ((p1 ++ colon :: p2 ++ hyphen :: p3 ++ colon :: p4) ++ tail).
  - apply consumed_app.
  - repeat (rewrite <- app_assoc; cbn [app]). reflexivity.
Qed.

End Reading.

(** [X3]: what [parse_time_range] reads.  On tables where the colon, the
    hyphen and the long dash are no digits, a text made of an hour field of
    one or two digits, a colon, a minute field of two digits, a hyphen or a
    long dash, and a second such time is parsed to the two clock values, the
    second one moved to the next day when it is not after the first; whatever
    follows the range is not read. *)
Theorem parse_time_range_reads (U : unicode)
    (p1 p2 p3 p4 tail : pystr) (dash : char) (h1 m1 h2 m2 : Z) :
  decimal U colon = None -> decimal U hyphen = None ->
  decimal U en_dash = None ->
  dash = hyphen \/ dash = en_dash ->
  py_int U p1 = Some h1 -> (length p1 <= 2)%nat ->
  py_int U p2 = Some m1 -> length p2 = 2%nat ->
  py_int U p3 = Some h2 -> (length p3 <= 2)%nat ->
  py_int U p4 = Some m2 -> length p4 = 2%nat ->
  parse_time_range U (p1 ++ colon :: p2 ++ dash :: p3 ++ colon :: p4 ++ tail)
  = Some (clock h1 m1,
          if (clock h2 m2 <=? clock h1 m1)%float
          then (clock h2 m2 + 24)%float else clock h2 m2).
Proof.
  intros Hc Hh He Hdash I1 L1 I2 L2 I3 L3 I4 L4.
  destruct (py_int_digits U p1 h1 I1) as [D1 N1].
  destruct (py_int_digits U p2 m1 I2) as [D2 _].
  destruct (py_int_digits U p3 h2 I3) as [D3 N3].
  destruct (py_int_digits U p4 m2 I4) as [D4 _].
  unfold parse_time_range.
  assert (R : replace_char en_dash hyphen
                (p1 ++ colon :: p2 ++ dash :: p3 ++ colon :: p4 ++ tail)
              = p1 ++ colon :: p2 ++ hyphen :: p3 ++ colon :: p4
                   ++ replace_char en_dash hyphen tail).
  { repeat (rewrite replace_char_app || rewrite replace_char_cons).
    rewrite !(replace_digits U) by assumption.
    destruct Hdash as [-> | ->]; reflexivity. }
  rewrite R.
  rewrite (time_range_match U p1 p2 p3 p4 _ Hc Hh D1 (conj N1 L1) D2 L2
             D3 (conj N3 L3) D4 L4).
  unfold int_group. cbn [caps group Nat.eqb]. rewrite I1, I2, I3, I4.
  reflexivity.
Qed.

Lemma parse_time_range_reads_witness :
  parse_time_range cpython
    (py "9" ++ colon :: py "05" ++ en_dash :: py "18" ++ colon :: py "30"
        ++ py " (обед 13:00-14:00)")
  = Some (clock 9 5,
          if (clock 18 30 <=? clock 9 5)%float
          then (clock 18 30 + 24)%float else clock 18 30).
Proof.
  apply (parse_time_range_reads cpython (py "9") (py "05") (py "18") (py "30")
           (py " (обед 13:00-14:00)") en_dash 9 5 18 30);
    try reflexivity; vm_compute; lia.
Defined.

Section DaySets.

Lemma str_eqb_eq (a b : pystr) : str_eqb a b = true <-> a = b.
Proof.
  revert b. induction a as [|x a IH]; intros [|y b]; simpl;
    try (split; [discriminate|discriminate]); [tauto|].
  rewrite andb_true_iff, Z.eqb_eq, IH. split.
  - intros [-> ->]. reflexivity.
  - intros [= -> ->]. auto.
Qed.

Lemma mem_In (d : pystr) (days : list pystr) :
  mem d days = true <-> In d days.
Proof.
  unfold mem. rewrite existsb_exists. split.
  - intros (x & Hx & E). apply str_eqb_eq in E. now subst.
  - intros H. exists d. split; [exact H|]. now apply str_eqb_eq.
Qed.

Lemma set_add_nodup (d : pystr) (days : list pystr) :
  NoDup days -> NoDup (set_add d days).
Proof.
  intros H. unfold set_add. destruct (mem d days) eqn:E; [exact H|].
  apply NoDup_app; [exact H|repeat constructor; intros []|].
  intros x Hx [<-|[]].
  apply mem_In in Hx. congruence.
Qed.

Lemma set_add_in (x d : pystr) (days : list pystr) :
  In x (set_add d days) -> x = d \/ In x days.
Proof.
  unfold set_add. destruct (mem d days); [auto|].
  intros H. apply in_app_or in H. destruct H as [H|[<-|[]]]; auto.
Qed.

Lemma set_update_spec (ds : list pystr) :
  forall days, NoDup days ->
    NoDup (set_update ds days)
    /\ forall x, In x (set_update ds days) -> In x ds \/ In x days.
Proof.
  unfold set_update.
  induction ds as [|d ds IH]; intros days H; cbn [fold_left]; [auto|].
  destruct (IH (set_add d days) (set_add_nodup d days H)) as [N I].
  split; [exact N|].
  intros x Hx. destruct (I x Hx) as [Hd|Ha].
  - left. right. exact Hd.
  - apply set_add_in in Ha. destruct Ha as [->|Ha].
    + left. left. reflexivity.
    + right. exact Ha.
Qed.

Lemma slice_in {A : Type} (l : list A) (i j : nat) (x : A) :
  In x (slice l i j) -> In x l.
Proof.
  unfold slice. intros H.
  rewrite <- (firstn_skipn i l). apply in_or_app. right.
  rewrite <- (firstn_skipn (j - i) (skipn i l)). apply in_or_app. now left.
Qed.

Lemma enumerate_spec (ds : list pystr) :
  forall days, NoDup days ->
    NoDup (fold_left (fun days d => if mem d ALL_DAYS then set_add d days
                                    else days) ds days)
    /\ forall x,
         In x (fold_left (fun days d => if mem d ALL_DAYS then set_add d days
                                        else days) ds days) ->
         In x ALL_DAYS \/ In x days.
Proof.
  induction ds as [|d ds IH]; intros days H; cbn [fold_left]; [auto|].
  destruct (mem d ALL_DAYS) eqn:E.
  - destruct (IH (set_add d days) (set_add_nodup d days H)) as [N I].
    split; [exact N|]. intros x Hx. destruct (I x Hx) as [Ha|Ha].
    + left. exact Ha.
    + apply set_add_in in Ha. destruct Ha as [->|Ha].
      * left. now apply mem_In.
      * right. exact Ha.
  - apply IH, H.
Qed.

Lemma set_add_iff (x d : pystr) (days : list pystr) :
  In x (set_add d days) <-> x = d \/ In x days.
Proof.
  split; [apply set_add_in|].
  unfold set_add. destruct (mem d days) eqn:E.
  - intros [->|H]; [now apply mem_In|exact H].
  - intros [->|H]; apply in_or_app; [right; now left|now left].
Qed.

(** The days that the enumeration keeps: the pieces that are names of days. *)
Lemma enumerate_in (ds : list pystr) :
  forall days x,
    In x (fold_left (fun days d => if mem d ALL_DAYS then set_add d days
                                   else days) ds days)
    <-> (In x ds /\ In x ALL_DAYS) \/ In x days.
Proof.
  induction ds as [|d ds IH]; intros days x; cbn [fold_left].
  - cbn [In]. tauto.
  - rewrite IH. cbn [In]. destruct (mem d ALL_DAYS) eqn:E.
    + rewrite set_add_iff. apply mem_In in E.
      split; [intros [[H A]|[->|H]]|intros [[[<-|H] A]|H]]; auto.
    + split; [intros [[H A]|H]|intros [[[<-|H] A]|H]]; auto.
      apply mem_In in A. congruence.
Qed.

(** The days of [expand_days] are days of the week, each of them once. *)
Lemma expand_days_set (U : unicode) (days_part : pystr) :
  NoDup (expand_days U days_part)
  /\ forall d, In d (expand_days U days_part) -> In d ALL_DAYS.
Proof.
  unfold expand_days.
  destruct (re_match U day_range_re (lower U days_part)) as [m|].
  - destruct (group 1 (caps m)) as [start|]; [|split; [constructor|intros d []]].
    destruct (group 2 (caps m)) as [end_|]; [|split; [constructor|intros d []]].
    destruct (index start order) as [i1|]; [|split; [constructor|intros d []]].
    destruct (index end_ order) as [i2|]; [|split; [constructor|intros d []]].
    destruct (set_update_spec (slice order i1 (i2 + 1)) [] (NoDup_nil _))
      as [N I].
    split; [exact N|]. intros d Hd. destruct (I d Hd) as [H|[]].
    apply slice_in in H. exact H.
  - destruct (enumerate_spec (re_split U comma_re (lower U days_part)) []
                (NoDup_nil _)) as [N I].
    split; [exact N|]. intros d Hd. destruct (I d Hd) as [H|[]]. exact H.
Qed.

(** The body of the day loop can be run on two days in either order. *)
Lemma add_day_swap (hours : float) (t : totals) (x y : pystr) :
  add_day hours (add_day hours t x) y = add_day hours (add_day hours t y) x.
Proof.
  unfold add_day.
  destruct (mem x WEEK_DAYS), (mem x WEEKEND_DAYS), (mem y WEEK_DAYS),
    (mem y WEEKEND_DAYS); reflexivity.
Qed.

End DaySets.

(** [X8]: the loop over the days of a segment gives the same totals in
    whatever order the set of days is visited. *)
Theorem day_loop_any_order (hours : float) (days days' : list pystr) :
  Permutation days days' ->
  forall t, fold_left (add_day hours) days t = fold_left (add_day hours) days' t.
Proof.
  induction 1 as [|x l l' _ IH|x y l|l l' l'' _ IH1 _ IH2]; intros t; simpl.
  - reflexivity.
  - apply IH.
  - now rewrite add_day_swap.
  - now rewrite IH1.
Qed.

Lemma day_loop_any_order_witness :
  fold_left (add_day 9) [py "сб"; py "пн"; py "вт"] totals0
  = fold_left (add_day 9) [py "пн"; py "сб"; py "вт"] totals0.
Proof.
  apply (day_loop_any_order 9 [py "сб"; py "пн"; py "вт"]
           [py "пн"; py "сб"; py "вт"]).
  apply perm_swap.
Defined.

Section SegmentLoop.

Variable U : unicode.

Lemma split_char_nonempty (sep : char) (s : pystr) : split_char sep s <> [].
Proof.
  destruct s as [|c s]; simpl; [discriminate|].
  destruct (c =? sep); [discriminate|].
  destruct (split_char sep s); discriminate.
Qed.

Lemma split_char_app (sep : char) (a b : pystr) :
  split_char sep (a ++ sep :: b) = split_char sep a ++ split_char sep b.
Proof.
  induction a as [|c a IH]; simpl.
  - rewrite Z.eqb_refl. reflexivity.
  - destruct (c =? sep); [now rewrite IH|].
    rewrite IH. pose proof (split_char_nonempty sep a) as N.
    destruct (split_char sep a) as [|seg segs]; [congruence|reflexivity].
Qed.

Lemma split_char_whole (sep : char) (s : pystr) :
  ~ In sep s -> split_char sep s = [s].
Proof.
  induction s as [|c s IH]; intros H; simpl; [reflexivity|].
  destruct (c =? sep) eqn:E.
  - apply Z.eqb_eq in E. subst c. exfalso. apply H. now left.
  - rewrite IH; [reflexivity|]. intros Hs. apply H. now right.
Qed.

Lemma split_char_clean (sep : char) (s : pystr) :
  forall seg, In seg (split_char sep s) -> ~ In sep seg.
Proof.
  induction s as [|c s IH]; simpl.
  - intros seg [<-|[]] [].
  - destruct (c =? sep) eqn:E.
    + intros seg [<-|H]; [intros []|apply IH, H].
    + destruct (split_char sep s) as [|seg0 segs].
      * intros seg [<-|[]] [->|[]]. now rewrite Z.eqb_refl in E.
      * intros seg [<-|H].
        -- intros [->|H0]; [now rewrite Z.eqb_refl in E|].
           revert H0. apply IH. now left.
        -- apply IH. now right.
Qed.

Lemma join_split (sep : char) (s : pystr) : join sep (split_char sep s) = s.
Proof.
  induction s as [|c s IH]; simpl; [reflexivity|].
  pose proof (split_char_nonempty sep s) as N.
  destruct (c =? sep) eqn:E.
  - apply Z.eqb_eq in E. subst c.
    destruct (split_char sep s) as [|seg segs]; [congruence|].
    cbn [join app]. cbn [join] in IH. now rewrite IH.
  - destruct (split_char sep s) as [|seg segs]; [congruence|].
    destruct segs as [|seg' segs]; cbn [join app] in *; now rewrite IH.
Qed.

(** The day loop and the segment loop keep a total at 0.0 while its flag is
    not set, and never clear a flag. *)
Lemma add_day_quiet (hours : float) (t : totals) (d : pystr) :
  (t_week t = false -> t_hours_week t = 0%float) ->
  (t_weekend t = false -> t_hours_weekend t = 0%float) ->
  (t_week (add_day hours t d) = false ->
   t_hours_week (add_day hours t d) = 0%float)
  /\ (t_weekend (add_day hours t d) = false ->
      t_hours_weekend (add_day hours t d) = 0%float).
Proof.
  intros Hw He. unfold add_day.
  destruct (mem d WEEK_DAYS); [|destruct (mem d WEEKEND_DAYS)];
    split; simpl; auto; discriminate.
Qed.

Lemma add_days_quiet (hours : float) (days : list pystr) :
  forall t,
    (t_week t = false -> t_hours_week t = 0%float) ->
    (t_weekend t = false -> t_hours_weekend t = 0%float) ->
    (t_week (fold_left (add_day hours) days t) = false ->
     t_hours_week (fold_left (add_day hours) days t) = 0%float)
    /\ (t_weekend (fold_left (add_day hours) days t) = false ->
        t_hours_weekend (fold_left (add_day hours) days t) = 0%float).
Proof.
  induction days as [|d days IH]; intros t Hw He; simpl; [auto|].
  destruct (add_day_quiet hours t d Hw He) as [Hw' He']. apply IH; assumption.
Qed.

Lemma add_segment_quiet (t : totals) (segment : pystr) :
  (t_week t = false -> t_hours_week t = 0%float) ->
  (t_weekend t = false -> t_hours_weekend t = 0%float) ->
  (t_week (add_segment U t segment) = false ->
   t_hours_week (add_segment U t segment) = 0%float)
  /\ (t_weekend (add_segment U t segment) = false ->
      t_hours_weekend (add_segment U t segment) = 0%float).
Proof.
  intros Hw He. unfold add_segment.
  destruct (re_match U segment_re (strip segment)) as [m|]; [|auto].
  destruct (group 1 (caps m)) as [days_part|]; [|auto].
  destruct (group 2 (caps m)) as [time_part|]; [|auto].
  destruct (parse_time_range U time_part) as [[start end_]|]; [|auto].
  apply add_days_quiet; simpl; assumption.
Qed.

Lemma add_segments_quiet (segments : list pystr) :
  forall t,
    (t_week t = false -> t_hours_week t = 0%float) ->
    (t_weekend t = false -> t_hours_weekend t = 0%float) ->
    (t_week (fold_left (add_segment U) segments t) = false ->
     t_hours_week (fold_left (add_segment U) segments t) = 0%float)
    /\ (t_weekend (fold_left (add_segment U) segments t) = false ->
        t_hours_weekend (fold_left (add_segment U) segments t) = 0%float).
Proof.
  induction segments as [|seg segments IH]; intros t Hw He; simpl; [auto|].
  destruct (add_segment_quiet t seg Hw He) as [Hw' He']. apply IH; assumption.
Qed.

Lemma add_day_flags (hours : float) (t : totals) (d : pystr) :
  t_night (add_day hours t d) = t_night t
  /\ t_day (add_day hours t d) = t_day t
  /\ (t_week t = true -> t_week (add_day hours t d) = true)
  /\ (t_weekend t = true -> t_weekend (add_day hours t d) = true).
Proof.
  unfold add_day.
  destruct (mem d WEEK_DAYS); [|destruct (mem d WEEKEND_DAYS)];
    simpl; auto.
Qed.

Lemma add_days_flags (hours : float) (days : list pystr) :
  forall t,
    t_night (fold_left (add_day hours) days t) = t_night t
    /\ t_day (fold_left (add_day hours) days t) = t_day t
    /\ (t_week t = true -> t_week (fold_left (add_day hours) days t) = true)
    /\ (t_weekend t = true ->
        t_weekend (fold_left (add_day hours) days t) = true).
Proof.
  induction days as [|d days IH]; intros t; simpl; [auto|].
  destruct (add_day_flags hours t d) as (N & D & W & E).
  destruct (IH (add_day hours t d)) as (N' & D' & W' & E').
  rewrite N', D', N, D. repeat split; auto.
Qed.

Lemma add_segment_flags (t : totals) (segment : pystr) :
  (t_night t = true -> t_night (add_segment U t segment) = true)
  /\ (t_day t = true -> t_day (add_segment U t segment) = true)
  /\ (t_week t = true -> t_week (add_segment U t segment) = true)
  /\ (t_weekend t = true -> t_weekend (add_segment U t segment) = true).
Proof.
  unfold add_segment.
  destruct (re_match U segment_re (strip segment)) as [m|]; [|auto].
  destruct (group 1 (caps m)) as [days_part|]; [|auto].
  destruct (group 2 (caps m)) as [time_part|]; [|auto].
  destruct (parse_time_range U time_part) as [[start end_]|]; [|auto].
  match goal with
  | |- context [fold_left (add_day ?h) ?ds ?t1] =>
      destruct (add_days_flags h ds t1) as (N & D & W & E)
  end.
  rewrite N, D. simpl in *.
  repeat split; auto.
  - intros ->. now destruct (intersects_night start end_).
  - intros ->. now destruct (intersects_day start end_).
Qed.

End SegmentLoop.

(** [X9]: [hours_parser] never reports hours for a part of the week it does
    not flag: when [on_week] is false [hours_on_week] is 0.0, and when
    [on_weekend] is false [hours_on_weekend] is 0.0. *)
Theorem no_hours_without_flag (U : unicode) (hours_str : option pystr) :
  (on_week (hours_parser U hours_str) = false ->
   hours_on_week (hours_parser U hours_str) = PyFloat 0)
  /\ (on_weekend (hours_parser U hours_str) = false ->
      hours_on_weekend (hours_parser U hours_str) = PyFloat 0).
Proof.
  destruct hours_str as [raw|]; [|split; reflexivity].
  unfold hours_parser.
  destruct (detect_24_7 U (normalize U raw)); [split; discriminate|].
  destruct (if startswith every_day (normalize U raw)
            then first_time_range U (normalize U raw) else None)
    as [[start end_]|]; [split; discriminate|].
  destruct (add_segments_quiet U (split_char semicolon (normalize U raw))
              totals0 (fun _ => eq_refl) (fun _ => eq_refl)) as [Hw He].
  split; simpl; intros H; f_equal; auto.
Qed.

(** [X10]: the segments of a text are read in turn, each one on top of the
    totals left by those before it: the loop over "a;b" is the loop over "b"
    started from the totals of the loop over "a". *)
Theorem segments_in_turn (U : unicode) (a b : pystr) (t : totals) :
  fold_left (add_segment U) (split_char semicolon (a ++ semicolon :: b)) t
  = fold_left (add_segment U) (split_char semicolon b)
      (fold_left (add_segment U) (split_char semicolon a) t).
Proof. rewrite split_char_app. apply fold_left_app. Qed.

(** [X11]: a segment that is not of the shape "days time-range" is passed
    over: a text followed by ";" and such a segment gives the totals of the
    text alone. *)
Theorem unreadable_segment_skipped (U : unicode) (a junk : pystr) (t : totals) :
  ~ In semicolon junk ->
  re_match U segment_re (strip junk) = None ->
  fold_left (add_segment U) (split_char semicolon (a ++ semicolon :: junk)) t
  = fold_left (add_segment U) (split_char semicolon a) t.
Proof.
  intros Hj Hm.
  rewrite split_char_app, fold_left_app, (split_char_whole _ _ Hj).
  cbn [fold_left]. unfold add_segment at 1. rewrite Hm. reflexivity.
Qed.

Lemma unreadable_segment_skipped_witness :
  fold_left (add_segment cpython)
    (split_char semicolon (py "пн-пт 09:00-18:00" ++ semicolon :: py " сб по записи"))
    totals0
  = fold_left (add_segment cpython)
      (split_char semicolon (py "пн-пт 09:00-18:00")) totals0.
Proof.
  apply (unreadable_segment_skipped cpython (py "пн-пт 09:00-18:00")
           (py " сб по записи") totals0).
  - vm_compute. lia.
  - vm_compute. reflexivity.
Defined.

(** [X12]: in the segment loop a flag that is set stays set: no later segment
    clears [is_night], [is_day], [on_week] or [on_weekend]. *)
Theorem flags_stay_set (U : unicode) (segments : list pystr) (t : totals) :
  (t_night t = true -> t_night (fold_left (add_segment U) segments t) = true)
  /\ (t_day t = true -> t_day (fold_left (add_segment U) segments t) = true)
  /\ (t_week t = true -> t_week (fold_left (add_segment U) segments t) = true)
  /\ (t_weekend t = true ->
      t_weekend (fold_left (add_segment U) segments t) = true).
Proof.
  revert t. induction segments as [|seg segments IH]; intros t; simpl;
    [auto|].
  destruct (add_segment_flags U t seg) as (N & D & W & E).
  destruct (IH (add_segment U t seg)) as (N' & D' & W' & E').
  repeat split; auto.
Qed.

(** [X13]: splitting a text on ";" loses nothing: the segments joined by ";"
    give the text back, and no segment holds a ";". *)
Theorem segments_rejoin (s : pystr) :
  join semicolon (split_char semicolon s) = s
  /\ forall seg, In seg (split_char semicolon s) -> ~ In semicolon seg.
Proof. split; [apply join_split|apply split_char_clean]. Qed.

Section Numbers.

Variable U : unicode.

(** What [re.findall] returns for [\d+] are runs of digits, none empty. *)
Lemma findall_digit_runs (s : pystr) :
  forall skip x,
    In x (findall_from U digits_re s skip) -> repeats U CDigit 1 None x.
Proof.
  induction s as [|c s IH]; intros skip x; cbn [findall_from]; [intros []|].
  destruct skip as [|n]; [|apply IH].
  destruct (re_match U digits_re (c :: s)) as [m|] eqn:Hm; [|apply IH].
  destruct (length (whole m)) as [|n]; [apply IH|].
  intros [<-|H]; [|eapply IH, H].
  apply re_match_sound in Hm. destruct Hm as (rest & _ & Hd).
  unfold digits_re in Hd. simpl in Hd. apply Hd.
Qed.

(** A run longer than the limit is not converted. *)
Lemma py_int_long (p : pystr) :
  (Z.of_nat (length p) <=? int_max_str_digits) = false -> py_int U p = None.
Proof.
  intros H. apply Z.leb_gt in H. destruct p as [|x p]; [reflexivity|].
  unfold py_int. apply Z.ltb_lt in H. rewrite H. reflexivity.
Qed.

(** Runs of digits are all converted when none is longer than the limit, and
    the conversion of the list fails when one is. *)
Lemma ints_runs (numbers : list pystr) :
  (forall x, In x numbers -> repeats U CDigit 1 None x) ->
  if forallb (fun x => Z.of_nat (length x) <=? int_max_str_digits) numbers
  then exists ns, ints U numbers = Some ns
                  /\ length ns = length numbers
                  /\ Forall (fun n => 0 <= n) ns
  else ints U numbers = None.
Proof.
  induction numbers as [|x numbers IH]; intros H; cbn [ints forallb].
  - exists []. repeat split. constructor.
  - specialize (IH (fun y Hy => H y (or_intror Hy))).
    destruct (Z.of_nat (length x) <=? int_max_str_digits) eqn:E; cbn [andb].
    + apply Z.leb_le in E.
      destruct (py_int_some U 0 x (H x (or_introl eq_refl)) E)
        as (n & En & Hn).
      rewrite En.
      destruct (forallb (fun x => Z.of_nat (length x) <=? int_max_str_digits)
                  numbers).
      * destruct IH as (ns & Es & L & F). rewrite Es.
        exists (n :: ns). repeat split; [simpl; lia|].
        constructor; assumption.
      * rewrite IH. reflexivity.
    + rewrite (py_int_long x E). reflexivity.
Qed.

End Numbers.

(** [X14]: the conversion [list(map(int, numbers))] of [parse_middle_beer_cup]
    fails on long runs of digits only.  Each string that [re.findall] returns
    for [\d+] is a run of digits; when none of them is longer than
    [int_max_str_digits] = 4300, every one is converted, to a number that is
    not negative; when one of them is longer, [int] raises, and so does
    [parse_middle_beer_cup] on a text that holds the key. *)
Theorem beer_numbers_convert (U : unicode) (raw : pystr) :
  if forallb (fun x => Z.of_nat (length x) <=? int_max_str_digits)
       (re_findall U digits_re (strip (lower U raw)))
  then exists ns,
         ints U (re_findall U digits_re (strip (lower U raw))) = Some ns
         /\ length ns = length (re_findall U digits_re (strip (lower U raw)))
         /\ Forall (fun n => 0 <= n) ns
  else ints U (re_findall U digits_re (strip (lower U raw))) = None
       /\ (contains beer_key (strip (lower U raw)) = true ->
           parse_middle_beer_cup U (Some raw) = Raises).
Proof.
  pose proof (ints_runs U (re_findall U digits_re (strip (lower U raw)))
                (fun x Hx => findall_digit_runs U _ O x Hx)) as H.
  destruct (forallb (fun x => Z.of_nat (length x) <=? int_max_str_digits)
              (re_findall U digits_re (strip (lower U raw)))); [exact H|].
  split; [exact H|]. intros Hk.
  unfold parse_middle_beer_cup. rewrite Hk, H. reflexivity.
Qed.

(** A price written with 4301 digits is beyond [int]. *)
Lemma beer_numbers_convert_witness :
  parse_middle_beer_cup cpython
    (Some (py "цена бокала пива: " ++ repeat 57 4301)) = Raises.
Proof.
  pose proof (beer_numbers_convert cpython
                (py "цена бокала пива: " ++ repeat 57 4301)) as H.
  assert (E : forallb (fun x => Z.of_nat (length x) <=? int_max_str_digits)
                (re_findall cpython digits_re
                   (strip (lower cpython
                             (py "цена бокала пива: " ++ repeat 57 4301))))
              = false) by (vm_compute; reflexivity).
  rewrite E in H. apply H. vm_compute. reflexivity.
Defined.

Ltac eval_py :=
  repeat match goal with
         | |- context [py ?s] =>
             let v := eval vm_compute in (py s) in change (py s) with v
         end.

Section DayRanges.

Variable U : unicode.

(** The name of a day is read by the alternation of the seven names, whatever
    follows it. *)
Lemma day_re_exact {R : Type} (d rest : pystr) (g : captures)
    (k : pystr -> captures -> option R) :
  In d order -> run U day_re (d ++ rest) g k = k rest g.
Proof.
  unfold order. eval_py. cbn [In]. intros H.
  decompose [or] H; try contradiction; subst d; unfold day_re; eval_py; cbn;
    destruct (k rest g); reflexivity.
Qed.

Lemma day_range_match (d1 d2 rest : pystr) :
  In d1 order -> In d2 order ->
  re_match U day_range_re (d1 ++ hyphen :: d2 ++ rest)
  = Some {| whole := d1 ++ hyphen :: d2;
            caps := [(2%nat, d2); (1%nat, d1)] |}.
Proof.
  intros H1 H2. unfold re_match, day_range_re. cbn [run].
  rewrite (day_re_exact d1 _ _ _ H1), consumed_app.
  cbn [startswith length skipn]. rewrite Z.eqb_refl. cbn [andb].
  rewrite (day_re_exact d2 _ _ _ H2), consumed_app.
  f_equal. f_equal.
  replace (d1 ++ hyphen :: d2 ++ rest) with ((d1 ++ hyphen :: d2) ++ rest)
    by (rewrite <- app_assoc; reflexivity).
  apply consumed_app.
Qed.

(** What the pattern of a day reads is one of the seven names. *)
Lemma day_re_sound (pre : pystr) (g g' : captures) :
  denote U day_re pre g g' -> In pre order /\ g' = g.
Proof.
  unfold day_re, order. cbn [denote In]. intros H.
  decompose [or and] H; subst; auto 10.
Qed.

(** A text where the pattern of a range matches starts with two names of days
    and a hyphen between them. *)
Lemma day_range_sound (s : pystr) (m : match_obj) :
  re_match U day_range_re s = Some m ->
  exists d1 d2 rest,
    In d1 order /\ In d2 order /\ s = d1 ++ hyphen :: d2 ++ rest.
Proof.
  intros Hm. apply re_match_sound in Hm. destruct Hm as (rest & Hs & Hd).
  unfold day_range_re in Hd. cbn [denote] in Hd.
  destruct Hd as (p1 & p2 & g1 & Hw & (g2 & H1 & _) & p3 & p4 & g3 & -> &
                  (-> & _) & g4 & H2 & _).
  apply day_re_sound in H1, H2. destruct H1 as [H1 _], H2 as [H2 _].
  exists p1, p4, rest. repeat split; try assumption.
  rewrite Hs, Hw, <- app_assoc. reflexivity.
Qed.

(** [str.lower] on a character that is read by itself. *)
Lemma lower_from_plain (b : bool) (c : char) (s : pystr) :
  (c =? capital_sigma) = false -> (c =? capital_i_with_dot) = false ->
  case_ignorable c = false ->
  lower_from b (c :: s) = cpython_lower_char c :: lower_from (cased c) s.
Proof.
  intros H1 H2 H3. cbn [lower_from]. rewrite H1, H2, H3. reflexivity.
Qed.

(** The letters of the names of the days are small cased letters. *)
Lemma day_letters (d : pystr) :
  In d order ->
  Forall (fun c => (c =? capital_sigma) = false
                   /\ (c =? capital_i_with_dot) = false
                   /\ case_ignorable c = false
                   /\ cased c = true
                   /\ cpython_lower_char c = c) d.
Proof.
  unfold order. eval_py. cbn [In]. intros H.
  decompose [or] H; try contradiction; subst d;
    repeat constructor; vm_compute; reflexivity.
Qed.

(** [str.lower] leaves small cased letters as they are, whatever surrounds
    them. *)
Lemma lower_from_letters (d : pystr) :
  Forall (fun c => (c =? capital_sigma) = false
                   /\ (c =? capital_i_with_dot) = false
                   /\ case_ignorable c = false
                   /\ cased c = true
                   /\ cpython_lower_char c = c) d ->
  forall b rest,
    lower_from b (d ++ rest)
    = d ++ lower_from (match d with [] => b | _ :: _ => true end) rest.
Proof.
  induction 1 as [|c d (H1 & H2 & H3 & H4 & H5) _ IH]; intros b rest;
    [reflexivity|].
  cbn [app]. rewrite (lower_from_plain b c _ H1 H2 H3), H4, H5, IH.
  destruct d; reflexivity.
Qed.

Lemma lower_day (d : pystr) : In d order -> lower cpython d = d.
Proof.
  intros H. change (lower cpython d) with (lower_from false d).
  rewrite <- (app_nil_r d) at 1.
  rewrite (lower_from_letters d (day_letters d H)). apply app_nil_r.
Qed.

(** A range of days at the start of a text is left as it is by [str.lower]. *)
Lemma lower_day_range (d1 d2 tail : pystr) :
  In d1 order -> In d2 order ->
  exists rest,
    lower cpython (d1 ++ hyphen :: d2 ++ tail) = d1 ++ hyphen :: d2 ++ rest.
Proof.
  intros H1 H2. change (lower cpython) with (lower_from false).
  rewrite (lower_from_letters d1 (day_letters d1 H1)).
  rewrite (lower_from_plain _ hyphen) by (vm_compute; reflexivity).
  replace (cpython_lower_char hyphen) with hyphen by (vm_compute; reflexivity).
  rewrite (lower_from_letters d2 (day_letters d2 H2)).
  eexists. reflexivity.
Qed.

End DayRanges.

(** [X15]: [expand_days] reads a leading range of days and nothing after it:
    for two day names at positions [i1] and [i2] of [order], followed by any
    text at all, the result is the days from [i1] to [i2], none when [i1] is
    after [i2].  So "пн-ср,сб" gives Monday to Wednesday, without Saturday. *)
Theorem expand_days_leading_range (d1 d2 tail : pystr) (i1 i2 : nat) :
  nth_error order i1 = Some d1 ->
  nth_error order i2 = Some d2 ->
  expand_days cpython (d1 ++ hyphen :: d2 ++ tail) = slice order i1 (i2 + 1).
Proof.
  intros H1 H2.
  pose proof (nth_error_In _ _ H1) as In1.
  pose proof (nth_error_In _ _ H2) as In2.
  unfold expand_days.
  destruct (lower_day_range d1 d2 tail In1 In2) as (rest & L).
  rewrite L, (day_range_match cpython d1 d2 _ In1 In2).
  cbn [caps group Nat.eqb]. clear L rest.
  assert (Hi1 : (i1 < 7)%nat)
    by (change 7%nat with (length order); apply nth_error_Some; congruence).
  assert (Hi2 : (i2 < 7)%nat)
    by (change 7%nat with (length order); apply nth_error_Some; congruence).
  assert (E1 : (i1 = 0 \/ i1 = 1 \/ i1 = 2 \/ i1 = 3 \/ i1 = 4 \/ i1 = 5
                \/ i1 = 6)%nat) by lia.
  assert (E2 : (i2 = 0 \/ i2 = 1 \/ i2 = 2 \/ i2 = 3 \/ i2 = 4 \/ i2 = 5
                \/ i2 = 6)%nat) by lia.
  clear Hi1 Hi2 In1 In2.
  decompose [or] E1; decompose [or] E2; subst i1 i2;
    injection H1 as <-; injection H2 as <-; vm_compute; reflexivity.
Qed.

Lemma expand_days_leading_range_witness :
  expand_days cpython (py "пн" ++ hyphen :: py "ср" ++ py ",сб")
  = [py "пн"; py "вт"; py "ср"].
Proof.
  exact (expand_days_leading_range (py "пн") (py "ср") (py ",сб") 0 2
           eq_refl eq_refl).
Defined.

(** [X7]: [expand_days], exactly.  Whatever the text, the days returned are
    days of the week, none of them twice.  A text that, in lower case, starts
    with two names of days and a hyphen between them gives the days from the
    position of the first name in [order] to that of the second, and what
    follows the range is not read.  Any other text gives the pieces between
    its commas that are names of days, and nothing else: a piece that is not
    one of the seven names is dropped, and a name given twice is one day of
    the set. *)
Theorem expand_days_exact (U : unicode) (days_part : pystr) :
  NoDup (expand_days U days_part)
  /\ (forall d, In d (expand_days U days_part) -> In d ALL_DAYS)
  /\ (forall d1 d2 rest i1 i2,
         lower U days_part = d1 ++ hyphen :: d2 ++ rest ->
         nth_error order i1 = Some d1 ->
         nth_error order i2 = Some d2 ->
         expand_days U days_part = slice order i1 (i2 + 1))
  /\ ((forall d1 d2 rest,
          In d1 order -> In d2 order ->
          lower U days_part <> d1 ++ hyphen :: d2 ++ rest) ->
      forall d,
        In d (expand_days U days_part)
        <-> In d (re_split U comma_re (lower U days_part)) /\ In d ALL_DAYS).
Proof.
  split; [apply expand_days_set|]. split; [apply expand_days_set|]. split.
  - intros d1 d2 rest i1 i2 L H1 H2.
    pose proof (nth_error_In _ _ H1) as In1.
    pose proof (nth_error_In _ _ H2) as In2.
    unfold expand_days. rewrite L, (day_range_match U d1 d2 _ In1 In2).
    cbn [caps group Nat.eqb].
    assert (Hi1 : (i1 < 7)%nat)
      by (change 7%nat with (length order); apply nth_error_Some; congruence).
    assert (Hi2 : (i2 < 7)%nat)
      by (change 7%nat with (length order); apply nth_error_Some; congruence).
    assert (E1 : (i1 = 0 \/ i1 = 1 \/ i1 = 2 \/ i1 = 3 \/ i1 = 4 \/ i1 = 5
                  \/ i1 = 6)%nat) by lia.
    assert (E2 : (i2 = 0 \/ i2 = 1 \/ i2 = 2 \/ i2 = 3 \/ i2 = 4 \/ i2 = 5
                  \/ i2 = 6)%nat) by lia.
    clear Hi1 Hi2 L In1 In2.
    decompose [or] E1; decompose [or] E2; subst i1 i2;
      injection H1 as <-; injection H2 as <-; vm_compute; reflexivity.
  - intros Hno d. unfold expand_days.
    destruct (re_match U day_range_re (lower U days_part)) as [m|] eqn:Hm.
    + apply day_range_sound in Hm.
      destruct Hm as (d1 & d2 & rest & H1 & H2 & E).
      destruct (Hno d1 d2 rest H1 H2 E).
    + rewrite enumerate_in. cbn [In]. tauto.
Qed.

(** An enumeration with a name given twice and a word that is no day, and a
    range with an enumeration after it. *)
Lemma expand_days_exact_witness :
  expand_days cpython (py "Сб, вс,сб,день") = [py "сб"; py "вс"]
  /\ expand_days cpython (py "пн-вт,сб,сб") = [py "пн"; py "вт"].
Proof.
  split; [vm_compute; reflexivity|].
  exact (proj1 (proj2 (proj2 (expand_days_exact cpython
                                (py "пн-вт,сб,сб"))))
           (py "пн") (py "вт") (py ",сб,сб") 0%nat 1%nat
           eq_refl eq_refl eq_refl).
Defined.

(* ================================================================== *)
(** * The segmented format *)
(* ================================================================== *)

Section Segmented.

Variable U : unicode.

(** No day belongs to both parts of the week. *)
Lemma week_not_weekend (d : pystr) :
  mem d WEEK_DAYS = true -> mem d WEEKEND_DAYS = false.
Proof.
  intros H. apply mem_In in H. unfold WEEK_DAYS in H. cbn [In] in H.
  decompose [or] H; try contradiction; subst d; vm_compute; reflexivity.
Qed.

(** The loop over the days of a segment adds [hours] once for each day of
    either part of the week. *)
Lemma add_days_sum (hours : float) (days : list pystr) :
  forall t,
    fold_left (add_day hours) days t =
    {| t_night := t_night t; t_day := t_day t;
       t_week := t_week t || (0 <? covered WEEK_DAYS days)%nat;
       t_weekend := t_weekend t || (0 <? covered WEEKEND_DAYS days)%nat;
       t_hours_week := add_times hours (covered WEEK_DAYS days) (t_hours_week t);
       t_hours_weekend :=
         add_times hours (covered WEEKEND_DAYS days) (t_hours_weekend t) |}.
Proof.
  induction days as [|d days IH]; intros t.
  - destruct t as [n d w e hw he].
    cbn [fold_left covered filter length add_times Nat.ltb Nat.leb
         t_night t_day t_week t_weekend t_hours_week t_hours_weekend].
    rewrite !orb_false_r. reflexivity.
  - cbn [fold_left]. rewrite IH. unfold covered, add_day. cbn [filter].
    destruct (mem d WEEK_DAYS) eqn:W.
    + rewrite (week_not_weekend d W).
      cbn [length add_times t_night t_day t_week t_weekend t_hours_week
           t_hours_weekend orb].
      rewrite orb_true_r. reflexivity.
    + destruct (mem d WEEKEND_DAYS);
        cbn [length add_times t_night t_day t_week t_weekend t_hours_week
             t_hours_weekend orb]; [rewrite orb_true_r|]; reflexivity.
Qed.

(** What the body of the loop over the segments does with a segment: nothing
    when the segment is not read, and otherwise what its reading says. *)
Lemma add_segment_reading (t : totals) (segment : pystr) :
  add_segment U t segment =
  match read_segment U segment with
  | None => t
  | Some r =>
      {| t_night := t_night t || intersects_night (r_start r) (r_end r);
         t_day := t_day t || intersects_day (r_start r) (r_end r);
         t_week := t_week t || (0 <? covered WEEK_DAYS (r_days r))%nat;
         t_weekend := t_weekend t || (0 <? covered WEEKEND_DAYS (r_days r))%nat;
         t_hours_week :=
           add_times (duration r) (covered WEEK_DAYS (r_days r))
             (t_hours_week t);
         t_hours_weekend :=
           add_times (duration r) (covered WEEKEND_DAYS (r_days r))
             (t_hours_weekend t) |}
  end.
Proof.
  unfold add_segment, read_segment.
  destruct (re_match U segment_re (strip segment)) as [m|]; [|reflexivity].
  destruct (group 1 (caps m)) as [days_part|]; [|reflexivity].
  destruct (group 2 (caps m)) as [time_part|]; [|reflexivity].
  destruct (parse_time_range U time_part) as [[start end_]|]; [|reflexivity].
  cbv zeta. rewrite add_days_sum.
  cbn [t_night t_day t_week t_weekend t_hours_week t_hours_weekend].
  unfold duration. cbn [r_days r_start r_end].
  destruct (intersects_night start end_), (intersects_day start end_),
    (t_night t), (t_day t); reflexivity.
Qed.

(** The loop over the segments, from any running values. *)
Lemma add_segments_sum (segments : list pystr) :
  forall t,
    let rs := flat_map (fun segment => match read_segment U segment with
                                       | Some r => [r]
                                       | None => []
                                       end) segments in
    fold_left (add_segment U) segments t =
    {| t_night := t_night t || any_by_night rs;
       t_day := t_day t || any_by_day rs;
       t_week := t_week t || works_on WEEK_DAYS rs;
       t_weekend := t_weekend t || works_on WEEKEND_DAYS rs;
       t_hours_week :=
         fold_left (fun total r =>
                      add_times (duration r) (covered WEEK_DAYS (r_days r))
                        total) rs (t_hours_week t);
       t_hours_weekend :=
         fold_left (fun total r =>
                      add_times (duration r) (covered WEEKEND_DAYS (r_days r))
                        total) rs (t_hours_weekend t) |}.
Proof.
  induction segments as [|segment segments IH]; intros t; cbv zeta.
  - destruct t as [n d w e hw he]. cbn. rewrite !orb_false_r. reflexivity.
  - cbn [fold_left flat_map]. cbv zeta in IH. rewrite IH, add_segment_reading.
    destruct (read_segment U segment) as [r|]; [|reflexivity].
    unfold any_by_night, any_by_day, works_on.
    cbn [app existsb fold_left t_night t_day t_week t_weekend t_hours_week
         t_hours_weekend].
    rewrite !orb_assoc. reflexivity.
Qed.

(** The record of a text that reaches the loop over the segments. *)
Lemma hours_parser_segmented (raw : pystr) :
  segmented U raw = true ->
  hours_parser U (Some raw) =
  {| is_24_7 := false;
     is_night := any_by_night (readings U (normalize U raw));
     is_day := any_by_day (readings U (normalize U raw));
     on_week := works_on WEEK_DAYS (readings U (normalize U raw));
     on_weekend := works_on WEEKEND_DAYS (readings U (normalize U raw));
     hours_on_week :=
       PyFloat (total_hours WEEK_DAYS (readings U (normalize U raw)));
     hours_on_weekend :=
       PyFloat (total_hours WEEKEND_DAYS (readings U (normalize U raw))) |}.
Proof.
  unfold segmented, hours_parser. cbv zeta.
  destruct (detect_24_7 U (normalize U raw)); [discriminate|].
  destruct (if startswith every_day (normalize U raw)
            then first_time_range U (normalize U raw) else None)
    as [[start end_]|]; [discriminate|].
  intros _.
  pose proof (add_segments_sum (split_char semicolon (normalize U raw))
                totals0) as H.
  cbv zeta in H. rewrite H. reflexivity.
Qed.

(** A text without "круглосуточно" that does not start with "ежедневно"
    reaches the loop over the segments. *)
Lemma plain_text_segmented (raw : pystr) :
  contains round_the_clock (normalize U raw) = false ->
  startswith every_day (normalize U raw) = false ->
  segmented U raw = true.
Proof.
  intros Hc Hs. unfold segmented, detect_24_7. cbv zeta.
  rewrite Hc, Hs. reflexivity.
Qed.

(** The days of a reading are a set of days of the week. *)
Lemma readings_days (text : pystr) (r : reading) :
  In r (readings U text) ->
  NoDup (r_days r) /\ forall d, In d (r_days r) -> In d ALL_DAYS.
Proof.
  unfold readings. intros H. apply in_flat_map in H.
  destruct H as (segment & _ & H). unfold read_segment in H.
  destruct (re_match U segment_re (strip segment)) as [m|]; [|destruct H].
  destruct (group 1 (caps m)) as [days_part|]; [|destruct H].
  destruct (group 2 (caps m)) as [time_part|]; [|destruct H].
  destruct (parse_time_range U time_part) as [[start end_]|]; [|destruct H].
  destruct H as [<-|[]]. apply expand_days_set.
Qed.

(** Readings that cover no day of a part of the week leave it untouched. *)
Lemma nothing_covered (part : list pystr) (rs : list reading) :
  (forall r, In r rs -> covered part (r_days r) = O) ->
  works_on part rs = false /\ total_hours part rs = 0%float.
Proof.
  unfold works_on, total_hours. generalize 0%float.
  induction rs as [|r rs IH]; intros x H; cbn [existsb fold_left]; [auto|].
  rewrite (H r (or_introl eq_refl)). cbn [add_times Nat.ltb Nat.leb orb].
  apply IH. intros r' Hr. apply H. now right.
Qed.

End Segmented.

(** [C5]: in the segmented format every segment that is read adds its full
    duration once for each day it covers, and the additions of all the
    segments accumulate.  For every text that reaches the loop over the
    segments, the record of [hours_parser] is the one that the readings of
    the segments give: each total starts from 0.0 and receives, segment after
    segment, the duration of the segment as many times as the segment covers
    days of that part of the week; the days of a segment are a set, so that a
    day is counted once.  Every text without "круглосуточно" that does not
    start with "ежедневно" is such a text.
    "пн-пт 09:00-18:00; сб,вс 10:00-16:00" is read as nine hours on the five
    week days and six hours on the two days of the weekend: 45.0 and 12.0, by
    day and not by night.  Two segments on the same part of the week add up:
    four hours on five days and four and a half on two make 29.0. *)
Theorem segments_add_up :
  (forall (U : unicode) (raw : pystr),
      segmented U raw = true ->
      hours_parser U (Some raw) =
      {| is_24_7 := false;
         is_night := any_by_night (readings U (normalize U raw));
         is_day := any_by_day (readings U (normalize U raw));
         on_week := works_on WEEK_DAYS (readings U (normalize U raw));
         on_weekend := works_on WEEKEND_DAYS (readings U (normalize U raw));
         hours_on_week :=
           PyFloat (total_hours WEEK_DAYS (readings U (normalize U raw)));
         hours_on_weekend :=
           PyFloat (total_hours WEEKEND_DAYS (readings U (normalize U raw)))
      |}
      /\ forall r, In r (readings U (normalize U raw)) -> NoDup (r_days r))
  /\ (forall (U : unicode) (raw : pystr),
         contains round_the_clock (normalize U raw) = false ->
         startswith every_day (normalize U raw) = false ->
         segmented U raw = true)
  /\ segmented cpython (py "пн-пт 09:00-18:00; сб,вс 10:00-16:00") = true
  /\ readings cpython
       (normalize cpython (py "пн-пт 09:00-18:00; сб,вс 10:00-16:00"))
     = [ {| r_days := WEEK_DAYS; r_start := 9; r_end := 18 |};
         {| r_days := WEEKEND_DAYS; r_start := 10; r_end := 16 |} ]
  /\ hours_parser cpython (Some (py "пн-пт 09:00-18:00; сб,вс 10:00-16:00")) =
     {| is_24_7 := false; is_night := false; is_day := true;
        on_week := true; on_weekend := true;
        hours_on_week := PyFloat 45; hours_on_weekend := PyFloat 12 |}
  /\ hours_parser cpython
       (Some (py "пн-пт 09:00-13:00; пн,ср 14:00-18:30; сб 10:00-16:00")) =
     {| is_24_7 := false; is_night := false; is_day := true;
        on_week := true; on_weekend := true;
        hours_on_week := PyFloat 29; hours_on_weekend := PyFloat 6 |}.
Proof.
  split; [|split; [exact plain_text_segmented|
                   repeat split; vm_compute; reflexivity]].
  intros U raw H. split; [exact (hours_parser_segmented U raw H)|].
  intros r Hr. exact (proj1 (readings_days U _ r Hr)).
Qed.

(** [C10]: in the segmented format [is_day] and [is_night] come from the time
    range of every segment that is read, whatever its days: for every text
    that reaches the loop over the segments, [is_day] says whether the time
    range of some segment meets the day, and [is_night] the same of the night;
    a segment whose days expand to nothing sets them as any other does; and
    when no segment has a day, the record is on no part of the week and has
    0.0 hours on both.  "сб-пн" is a range of days that runs backwards and
    expands to nothing, so "сб-пн 10:00-18:00" gives a record that is open by
    day, yet on no day and for no hours at all; with a second segment,
    [is_day] still comes from the first one alone. *)
Theorem day_flag_without_days :
  (forall (U : unicode) (raw : pystr),
      segmented U raw = true ->
      is_day (hours_parser U (Some raw))
      = any_by_day (readings U (normalize U raw))
      /\ is_night (hours_parser U (Some raw))
         = any_by_night (readings U (normalize U raw))
      /\ (forall r, In r (readings U (normalize U raw)) ->
                    r_days r = [] ->
                    (intersects_day (r_start r) (r_end r) = true ->
                     is_day (hours_parser U (Some raw)) = true)
                    /\ (intersects_night (r_start r) (r_end r) = true ->
                        is_night (hours_parser U (Some raw)) = true))
      /\ ((forall r, In r (readings U (normalize U raw)) -> r_days r = []) ->
          on_week (hours_parser U (Some raw)) = false
          /\ on_weekend (hours_parser U (Some raw)) = false
          /\ hours_on_week (hours_parser U (Some raw)) = PyFloat 0
          /\ hours_on_weekend (hours_parser U (Some raw)) = PyFloat 0))
  /\ expand_days cpython (py "сб-пн") = []
  /\ segmented cpython (py "сб-пн 10:00-18:00") = true
  /\ readings cpython (normalize cpython (py "сб-пн 10:00-18:00"))
     = [ {| r_days := []; r_start := 10; r_end := 18 |} ]
  /\ hours_parser cpython (Some (py "сб-пн 10:00-18:00")) =
     {| is_24_7 := false; is_night := false; is_day := true;
        on_week := false; on_weekend := false;
        hours_on_week := PyFloat 0; hours_on_weekend := PyFloat 0 |}
  /\ hours_parser cpython (Some (py "сб-пн 10:00-18:00; пн 23:00-02:00")) =
     {| is_24_7 := false; is_night := true; is_day := true;
        on_week := true; on_weekend := false;
        hours_on_week := PyFloat 3; hours_on_weekend := PyFloat 0 |}.
Proof.
  split; [|repeat split; vm_compute; reflexivity].
  intros U raw H. rewrite (hours_parser_segmented U raw H).
  cbn [is_day is_night on_week on_weekend hours_on_week hours_on_weekend].
  split; [reflexivity|]. split; [reflexivity|]. split.
  - intros r Hr _. unfold any_by_day, any_by_night.
    split; intros Hi; apply existsb_exists; exists r; split; assumption.
  - intros Hno.
    assert (Hc : forall part r, In r (readings U (normalize U raw)) ->
                                covered part (r_days r) = O)
      by (intros part r Hr; rewrite (Hno r Hr); reflexivity).
    destruct (nothing_covered WEEK_DAYS _ (Hc WEEK_DAYS)) as [-> ->].
    destruct (nothing_covered WEEKEND_DAYS _ (Hc WEEKEND_DAYS)) as [-> ->].
    repeat split.
Qed.
